(** * Soil Condition Inference Engine: a shallow embedding

    The definitions below follow [src/services/soilAnalysisService.js]
    (class [SoilAnalysisService]) and [src/utils/analysisUtils.js]
    (class [AnalysisUtils]) function by function.

    JavaScript numbers are modelled by [JS.num]: the IEEE special values
    NaN, +Infinity and -Infinity are kept, because the code reaches them
    by dividing reflectances, and the finite values are exact rationals.
    Two idealisations are made and are the same everywhere: a finite
    operation is not rounded (a decimal literal such as [0.4] is the
    rational 4/10), and zero carries no sign (it divides like +0). *)

From Stdlib Require Import QArith Qround Qabs Lqa Lia ZArith List.
From stdpp Require Import gmap strings fin_maps.
Import ListNotations.

Local Open Scope string_scope.

(** ** JavaScript numbers *)

Module JS.

Local Open Scope Q_scope.

Inductive num : Type :=
| NaN
| PosInf
| NegInf
| Fin (q : Q).

Definition Qltb (x y : Q) : bool := negb (Qle_bool y x).

Definition neg (a : num) : num :=
  match a with
  | NaN => NaN
  | PosInf => NegInf
  | NegInf => PosInf
  | Fin x => Fin (- x)
  end.

(** [a + b] *)
Definition add (a b : num) : num :=
  match a, b with
  | NaN, _ | _, NaN => NaN
  | PosInf, NegInf | NegInf, PosInf => NaN
  | PosInf, _ | _, PosInf => PosInf
  | NegInf, _ | _, NegInf => NegInf
  | Fin x, Fin y => Fin (x + y)
  end.

(** [a - b] *)
Definition sub (a b : num) : num := add a (neg b).

(** An infinity of the sign of [a] scaled by the finite factor [y]:
    NaN when [y] is zero, flipped when [y] is negative. *)
Definition scale_inf (a : num) (y : Q) : num :=
  if Qeq_bool y 0 then NaN
  else if Qltb y 0 then neg a else a.

(** [a * b] *)
Definition mul (a b : num) : num :=
  match a, b with
  | NaN, _ | _, NaN => NaN
  | Fin x, Fin y => Fin (x * y)
  | Fin x, inf => scale_inf inf x
  | inf, Fin y => scale_inf inf y
  | PosInf, PosInf | NegInf, NegInf => PosInf
  | PosInf, NegInf | NegInf, PosInf => NegInf
  end.

(** [a / b]; a finite value over zero is an infinity of the sign of the
    numerator, and 0/0 is NaN. *)
Definition div (a b : num) : num :=
  match a, b with
  | NaN, _ | _, NaN => NaN
  | Fin x, Fin y =>
      if Qeq_bool y 0 then
        if Qeq_bool x 0 then NaN
        else if Qltb x 0 then NegInf else PosInf
      else Fin (x / y)
  | Fin _, _ => Fin 0
  | inf, Fin y => if Qltb y 0 then neg inf else inf
  | _, _ => NaN
  end.

(** [a < b]; every comparison with NaN is false. *)
Definition ltb (a b : num) : bool :=
  match a, b with
  | NaN, _ | _, NaN => false
  | Fin x, Fin y => Qltb x y
  | NegInf, NegInf => false
  | NegInf, _ => true
  | _, PosInf => match a with PosInf => false | _ => true end
  | _, _ => false
  end.

Definition gtb (a b : num) : bool := ltb b a.

(** [a === b] on numbers. *)
Definition eqb (a b : num) : bool :=
  match a, b with
  | Fin x, Fin y => Qeq_bool x y
  | PosInf, PosInf | NegInf, NegInf => true
  | _, _ => false
  end.

(** [a <= b] and [a >= b]. *)
Definition leb (a b : num) : bool := ltb a b || eqb a b.
Definition geb (a b : num) : bool := leb b a.

(** [Math.max(a, b)] and [Math.min(a, b)]: NaN when an argument is. *)
Definition max (a b : num) : num :=
  match a, b with
  | NaN, _ | _, NaN => NaN
  | _, _ => if ltb a b then b else a
  end.

Definition min (a b : num) : num :=
  match a, b with
  | NaN, _ | _, NaN => NaN
  | _, _ => if ltb b a then b else a
  end.

(** [Math.abs(a)] *)
Definition abs (a : num) : num :=
  match a with
  | NaN => NaN
  | PosInf | NegInf => PosInf
  | Fin x => Fin (Qabs x)
  end.

(** [Math.round(a)]: the nearest integer, a half rounding up. *)
Definition round (a : num) : num :=
  match a with
  | Fin x => Fin (inject_Z (Qfloor (x + (1 # 2))))
  | _ => a
  end.

(** [isNaN(a)] and [isFinite(a)]. *)
Definition isNaN (a : num) : bool :=
  match a with NaN => true | _ => false end.

Definition isFinite (a : num) : bool :=
  match a with Fin _ => true | _ => false end.

(** Equality of two numbers as values: the same special value, or equal
    rationals. *)
Definition same (a b : num) : Prop :=
  match a, b with
  | NaN, NaN | PosInf, PosInf | NegInf, NegInf => True
  | Fin x, Fin y => (x == y)%Q
  | _, _ => False
  end.

(** The number is a finite value in the closed interval [lo, hi]. *)
Definition within (lo hi : Q) (a : num) : Prop :=
  match a with
  | Fin x => (lo <= x /\ x <= hi)%Q
  | _ => False
  end.

End JS.

Declare Scope js_scope.
Delimit Scope js_scope with js.
Bind Scope js_scope with JS.num.
Infix "+" := JS.add : js_scope.
Infix "-" := JS.sub : js_scope.
Infix "*" := JS.mul : js_scope.
Infix "/" := JS.div : js_scope.
Infix "<?" := JS.ltb : js_scope.
Infix ">?" := JS.gtb : js_scope.
Infix "<=?" := JS.leb : js_scope.
Infix ">=?" := JS.geb : js_scope.
Infix "===" := JS.eqb (at level 70) : js_scope.
Coercion JS.Fin : Q >-> JS.num.


Local Open Scope Q_scope.
Local Open Scope js_scope.

(** ** Data model *)

(** The bands [calculateVegetationIndices], [analyzeSoilMoisture],
    [analyzeSoilComposition], [estimatePH] and [calculateSoilTemperature]
    destructure from [scene.bands]. *)
Record Bands : Type := {
  B02 : JS.num;
  B03 : JS.num;
  B04 : JS.num;
  B08 : JS.num;
  B8A : JS.num;
  B11 : JS.num;
  B12 : JS.num
}.

Record Location : Type := {
  lat : JS.num;
  lon : JS.num
}.

(** A [Date] object, through the two observations the code makes of it:
    its time value in milliseconds (what [<], [>] and [-] see) and
    [getMonth()], 0 to 11. *)
Record Date : Type := {
  getTime : Z;
  getMonth : Z
}.

(** A scene as the data-acquisition layer hands it over: [date] is the
    capture date [new Date(scene.date)] parses, [cloudCover] a
    percentage. *)
Record Scene : Type := {
  scene_id : string;
  date : Date;
  cloudCover : Q;
  bands : Bands
}.

Record SentinelData : Type := {
  scenes : option (list Scene)
}.

Record Indices : Type := {
  ndvi : JS.num;
  evi : JS.num;
  ndmi : JS.num;
  bsi : JS.num
}.

(** [description] is [descriptions[level]], [None] for [undefined]. *)
Record Moisture : Type := {
  percentage : JS.num;
  level : string;
  description : option string;
  ndmiValue : JS.num
}.

Record Fertility : Type := {
  score : JS.num;
  fertility_level : string;
  fertility_description : string
}.

(** The object literal [composition] of [analyzeSoilComposition]. *)
Record Composition : Type := {
  clay : JS.num;
  sand : JS.num;
  silt : JS.num;
  organicMatter : JS.num;
  ironOxide : JS.num;
  ph : JS.num
}.

(** The assignment [composition.silt = v]. *)
Definition set_silt (composition : Composition) (v : JS.num) : Composition :=
  {| clay := clay composition;
     sand := sand composition;
     silt := v;
     organicMatter := organicMatter composition;
     ironOxide := ironOxide composition;
     ph := ph composition |}.

Record SoilType : Type := {
  type : string;
  soil_description : string
}.

(** What [analyzeSoilComposition] returns: [...composition] and three
    more fields. *)
Record CompositionResult : Type := {
  spread : Composition;
  soilType : string;
  composition_description : string;
  fertility : Fertility
}.

Record Factors : Type := {
  seasonal : JS.num;
  latitude : JS.num;
  surface : JS.num
}.

Record Temperature : Type := {
  celsius : JS.num;
  fahrenheit : JS.num;
  temperature_description : string;
  factors : Factors
}.

Record Recommendation : Type := {
  rec_type : string;
  category : string;
  priority : string;
  severity : string;
  message : string;
  action : string;
  details : string;
  timeline : string;
  cost : string;
  impact : string;
  seasonality : string
}.

Record AnalysisResult : Type := {
  sceneUsed : string;
  analysisDate : Date;
  result_moisture : Moisture;
  result_composition : CompositionResult;
  result_ndvi : JS.num;
  result_temperature : Temperature;
  recommendations : list Recommendation;
  confidence : string;
  indices : Indices
}.

(** The outcome of a call that may [throw new Error(msg)]. *)
Inductive outcome (A : Type) : Type :=
| Return (a : A)
| Throw (msg : string).
Arguments Return {A} a.
Arguments Throw {A} msg.

(** ** [SoilAnalysisService] *)

Module SoilAnalysisService.

(** [selectBestScene(scenes)]: a [reduce] from [null]. *)
Definition selectBestScene_step (best : option Scene) (current : Scene)
  : option Scene :=
  match best with
  | None => Some current
  | Some b =>
      if JS.Qltb (cloudCover current) (cloudCover b) then Some current
      else if Qeq_bool (cloudCover current) (cloudCover b)
              && (getTime (date current) >? getTime (date b))%Z
           then Some current
      else Some b
  end.

Definition selectBestScene (scenes : list Scene) : option Scene :=
  fold_left selectBestScene_step scenes None.

(** [calculateVegetationIndices(bands)] *)
Definition calculateVegetationIndices (bands : Bands) : Indices :=
  let B02 := B02 bands in
  let B04 := B04 bands in
  let B08 := B08 bands in
  let B11 := B11 bands in
  let ndvi := (B08 - B04) / (B08 + B04) in
  let evi := 2.5 * ((B08 - B04) / (B08 + 6 * B04 - 7.5 * B02 + 1)) in
  let ndmi := (B08 - B11) / (B08 + B11) in
  let bsi := ((B11 + B04) - (B08 + B02)) / ((B11 + B04) + (B08 + B02)) in
  {| ndvi := JS.max (-1) (JS.min 1 ndvi);
     evi := JS.max (-1) (JS.min 1 evi);
     ndmi := JS.max (-1) (JS.min 1 ndmi);
     bsi := JS.max (-1) (JS.min 1 bsi) |}.

(** The value of an own property of an object literal with string keys,
    [None] for [undefined]. *)
Fixpoint property {A : Type} (obj : list (string * A)) (key : string)
  : option A :=
  match obj with
  | [] => None
  | (k, v) :: rest => if String.eqb k key then Some v else property rest key
  end.

Definition getMoistureLevel (percentage : JS.num) : string :=
  if percentage <? 15 then "very_low"
  else if percentage <? 30 then "low"
  else if percentage <? 60 then "moderate"
  else if percentage <? 80 then "high"
  else "very_high".

Definition getMoistureDescription (percentage : JS.num) : option string :=
  let level := getMoistureLevel percentage in
  let descriptions :=
    [ ("very_low", "Very dry soil, irrigation strongly recommended");
      ("low", "Dry soil, may need irrigation");
      ("moderate", "Adequate moisture for most crops");
      ("high", "Good moisture content");
      ("very_high", "Potentially waterlogged, check drainage") ] in
  property descriptions level.

(** [analyzeSoilMoisture(bands, indices, location)] *)
Definition analyzeSoilMoisture (bands : Bands) (indices : Indices)
  (location : Location) : Moisture :=
  let B11 := B11 bands in
  let B12 := B12 bands in
  let ndmi := ndmi indices in
  let moistureIndex :=
    if ndmi >? 0.4 then 70 + (ndmi - 0.4) * 50
    else if ndmi >? 0.1 then 40 + (ndmi - 0.1) * 100
    else if ndmi >? (-0.1) then 15 + (ndmi + 0.1) * 125
    else 5 + JS.max 0 ((ndmi + 0.3) * 50) in
  let swirRatio := B11 / B12 in
  let moistureIndex := moistureIndex * (0.9 + (swirRatio - 1) * 0.1) in
  let lat := lat location in
  let moistureIndex :=
    if JS.abs lat <? 23.5 then moistureIndex * 1.05
    else if JS.abs lat >? 60 then moistureIndex * 0.95
    else moistureIndex in
  let moistureIndex := JS.max 5 (JS.min 95 moistureIndex) in
  {| percentage := JS.round (moistureIndex * 100) / 100;
     level := getMoistureLevel moistureIndex;
     description := getMoistureDescription moistureIndex;
     ndmiValue := JS.round (ndmi * 1000) / 1000 |}.

Definition determineSoilType (composition : Composition) : SoilType :=
  let clay := clay composition in
  let sand := sand composition in
  let silt := silt composition in
  if clay >? 40 then
    {| type := "Clay";
       soil_description :=
         "Heavy clay soil with good nutrient retention but poor drainage" |}
  else if sand >? 70 then
    {| type := "Sand";
       soil_description :=
         "Sandy soil with good drainage but low nutrient retention" |}
  else if silt >? 40 then
    {| type := "Silt";
       soil_description :=
         "Silty soil with good water retention and moderate drainage" |}
  else if (clay >? 25) && (sand >? 25) then
    {| type := "Clay Loam";
       soil_description :=
         "Well-balanced soil with good structure and fertility" |}
  else if sand >? 50 then
    {| type := "Sandy Loam";
       soil_description :=
         "Good drainage with reasonable nutrient retention" |}
  else
    {| type := "Loam";
       soil_description := "Ideal soil type with balanced properties" |}.

Definition estimatePH (bands : Bands) (location : Location) : JS.num :=
  let B04 := B04 bands in
  let B11 := B11 bands in
  let ph : JS.num := 7.0 in
  let spectralIndicator := (B11 - B04) / (B11 + B04) in
  let ph := ph + spectralIndicator * 2 in
  let ph := if lat location >? 50 then ph - 0.5 else ph in
  let ph := if JS.abs (lat location) <? 23.5 then ph + 0.3 else ph in
  JS.max 4.0 (JS.min 9.0 (JS.round (ph * 10) / 10)).

Definition getFertilityDescription (score : JS.num) : string :=
  if score >? 75 then "Highly fertile soil suitable for most crops"
  else if score >? 50
  then "Moderately fertile soil with some improvement potential"
  else "Low fertility soil requiring amendments".

Definition assessFertility (composition : Composition) : Fertility :=
  let organicMatter := organicMatter composition in
  let ph := ph composition in
  let clay := clay composition in
  let sand := sand composition in
  let fertilityScore : JS.num := 50 in
  let fertilityScore := fertilityScore + organicMatter * 5 in
  let phOptimal : JS.num := 6.75 in
  let fertilityScore :=
    fertilityScore + (20 - JS.abs (ph - phOptimal) * 10) in
  let fertilityScore :=
    if (clay >? 20) && (clay <? 50) && (sand >? 20) && (sand <? 60)
    then fertilityScore + 15 else fertilityScore in
  let fertilityScore := JS.max 0 (JS.min 100 fertilityScore) in
  {| score := JS.round fertilityScore;
     fertility_level :=
       if fertilityScore >? 75 then "high"
       else if fertilityScore >? 50 then "medium" else "low";
     fertility_description := getFertilityDescription fertilityScore |}.

(** [analyzeSoilComposition(bands, location)]; the second [composition]
    is the object after the assignment to [composition.silt]. *)
Definition analyzeSoilComposition (bands : Bands) (location : Location)
  : CompositionResult :=
  let B02 := B02 bands in
  let B04 := B04 bands in
  let B11 := B11 bands in
  let B12 := B12 bands in
  let ironOxide := B04 / B02 in
  let clayContent := B11 / B12 in
  let organicMatter := 1 - (B04 + B11) / 2 in
  let composition :=
    {| clay := JS.max 0 (JS.min 100 (clayContent * 40));
       sand := JS.max 0 (JS.min 100 ((2 - clayContent) * 30));
       silt := 0;
       organicMatter := JS.max 0 (JS.min 15 (organicMatter * 8));
       ironOxide := JS.max 0 (JS.min 10 ((ironOxide - 1) * 15));
       ph := estimatePH bands location |} in
  let composition :=
    set_silt composition
      (JS.max 0 (100 - clay composition - sand composition)) in
  let soilType := determineSoilType composition in
  {| spread := composition;
     soilType := type soilType;
     composition_description := soil_description soilType;
     fertility := assessFertility composition |}.

Definition getTemperatureDescription (temp : JS.num) : string :=
  if temp <? 5 then "Very cold - limited biological activity"
  else if temp <? 15 then "Cool - slow plant growth"
  else if temp <? 25 then "Optimal - good for most crops"
  else if temp <? 35 then "Warm - may stress some plants"
  else "Hot - requires heat-tolerant varieties".

(** [getSeason(month, location)] *)
Definition getSeason (month : Z) (location : Location) : string :=
  if (2 <=? month)%Z && (month <=? 4)%Z then "spring"
  else if (5 <=? month)%Z && (month <=? 7)%Z then "summer"
  else if (8 <=? month)%Z && (month <=? 10)%Z then "fall"
  else "winter".

Definition seasonalAdvice : list (string * list (string * string)) :=
  [ ("irrigation",
     [ ("spring", "Monitor emerging crops closely for water needs");
       ("summer", "Peak irrigation season - ensure adequate water supply");
       ("fall", "Reduce irrigation as temperatures cool");
       ("winter", "Minimal irrigation needed in most regions") ]);
    ("planting",
     [ ("spring", "Optimal time for most crop planting");
       ("summer", "Plant heat-tolerant varieties");
       ("fall", "Plant cool-season crops and cover crops");
       ("winter", "Limited planting options in temperate regions") ]);
    ("soil_amendment",
     [ ("spring", "Apply amendments before planting");
       ("summer", "Light applications to avoid plant stress");
       ("fall", "Ideal time for major soil amendments");
       ("winter", "Plan and prepare amendments for spring") ]);
    ("liming",
     [ ("spring", "Apply lime before planting season");
       ("summer", "Avoid liming during hot weather");
       ("fall", "Best time for lime application");
       ("winter", "Good time for lime application in mild climates") ]) ].

(** [getSeasonalAdvice(practice, location)]. The method reads the clock,
    [new Date().getMonth()]; [now] is the [Date] that read returns. No
    advice in the table is the empty string, so [||] gives the fallback
    on [undefined] only. *)
Definition getSeasonalAdvice (now : Date) (practice : string)
  (location : Location) : string :=
  let month := getMonth now in
  let season := getSeason month location in
  match property seasonalAdvice practice with
  | Some advice =>
      match property advice season with
      | Some text => text
      | None => "Consult local agricultural extension for timing"
      end
  | None => "Consult local agricultural extension for timing"
  end.

(** [recommendations.push(r)] *)
Definition push (recommendations : list Recommendation)
  (r : Recommendation) : list Recommendation :=
  recommendations ++ [r].

(** [addSoilHealthRecommendations]: the array is passed in and returned
    with what the method pushed. *)
Definition addSoilHealthRecommendations (now : Date)
  (recommendations : list Recommendation) (moisture : Moisture)
  (composition : CompositionResult) (indices : Indices)
  (location : Location) : list Recommendation :=
  let c := spread composition in
  let recommendations :=
    if (organicMatter c <? 3) && (ndvi indices <? 0.5) then
      push recommendations
        {| rec_type := "Soil Biology Enhancement";
           category := "soil_health";
           priority := "medium";
           severity := "medium";
           message := "Poor soil biology indicated by low organic matter and vegetation health.";
           action := "Implement biological soil enhancement program";
           details := "Apply mycorrhizal inoculants, beneficial bacteria, and compost tea. Minimize soil disturbance.";
           timeline := "Medium-term (3-6 months)";
           cost := "Medium";
           impact := "High - Builds soil ecosystem";
           seasonality := getSeasonalAdvice now "soil_biology" location |}
    else recommendations in
  if (sand c >? 60) && (ndvi indices <? 0.4) then
    push recommendations
      {| rec_type := "Erosion Prevention";
         category := "conservation";
         priority := "high";
         severity := "high";
         message := "Sandy soil with poor vegetation cover is susceptible to erosion.";
         action := "Implement immediate erosion control measures";
         details := "Install windbreaks, create contour farming, use cover crops, apply erosion control matting.";
         timeline := "Immediate (0-2 weeks)";
         cost := "Medium";
         impact := "Critical - Prevents soil loss";
         seasonality := getSeasonalAdvice now "erosion_control" location |}
  else recommendations.

(** [cropSuggestions.join(', ')] *)
Definition join (sep : string) (items : list string) : string :=
  String.concat sep items.

Definition addCropRecommendations (now : Date)
  (recommendations : list Recommendation) (moisture : Moisture)
  (composition : CompositionResult) (indices : Indices)
  (location : Location) : list Recommendation :=
  let c := spread composition in
  let cropSuggestions : list string :=
    if (clay c >? 50) && (percentage moisture >? 60)
    then ["rice"; "cotton"; "soybeans"]
    else if (sand c >? 60) && (percentage moisture <? 40)
    then ["drought-resistant crops"; "millet"; "sorghum"]
    else if (ph c >=? 6.0) && (ph c <=? 7.5)
    then ["corn"; "wheat"; "vegetables"]
    else [] in
  if (0 <? Z.of_nat (length cropSuggestions))%Z then
    push recommendations
      {| rec_type := "Optimal Crop Selection";
         category := "crop_planning";
         priority := "low";
         severity := "low";
         message := "Current soil conditions are well-suited for specific crop types.";
         action := "Consider planting: " ++ join ", " cropSuggestions;
         details := "These crops are well-adapted to your current soil conditions and will likely perform well with minimal amendments.";
         timeline := "Next planting season";
         cost := "Variable";
         impact := "Medium - Optimizes crop success";
         seasonality := getSeasonalAdvice now "crop_selection" location |}
  else recommendations.

Definition addSustainabilityRecommendations (now : Date)
  (recommendations : list Recommendation) (moisture : Moisture)
  (composition : CompositionResult) (indices : Indices)
  (location : Location) : list Recommendation :=
  let c := spread composition in
  let recommendations :=
    if organicMatter c <? 4 then
      push recommendations
        {| rec_type := "Carbon Sequestration";
           category := "sustainability";
           priority := "low";
           severity := "low";
           message := "Opportunity to increase soil carbon storage and improve environmental sustainability.";
           action := "Implement carbon-building agricultural practices";
           details := "Use no-till farming, diverse crop rotations, cover cropping, and integrated livestock grazing.";
           timeline := "Long-term (2-5 years)";
           cost := "Low";
           impact := "High - Environmental and economic benefits";
           seasonality := "Year-round implementation" |}
    else recommendations in
  if ndvi indices <? 0.6 then
    push recommendations
      {| rec_type := "Biodiversity Enhancement";
         category := "sustainability";
         priority := "low";
         severity := "low";
         message := "Enhance on-farm biodiversity to improve ecosystem services.";
         action := "Create habitat corridors and diverse plantings";
         details := "Plant native hedgerows, establish pollinator strips, create wildlife corridors, use diverse crop rotations.";
         timeline := "Long-term (1-3 years)";
         cost := "Medium";
         impact := "Medium - Ecosystem benefits";
         seasonality := getSeasonalAdvice now "biodiversity" location |}
  else recommendations.

(** [generateRecommendations(moisture, composition, indices, location)];
    [now] is what [new Date()] returns inside [getSeasonalAdvice]. *)
Definition generateRecommendations (now : Date) (moisture : Moisture)
  (composition : CompositionResult) (indices : Indices)
  (location : Location) : list Recommendation :=
  let c := spread composition in
  let recommendations : list Recommendation := [] in
  let recommendations :=
    if percentage moisture <? 15 then
      push recommendations
        {| rec_type := "Critical Irrigation";
           category := "water_management";
           priority := "critical";
           severity := "high";
           message := "Critically low soil moisture detected. Immediate irrigation required to prevent crop stress.";
           action := "Implement emergency irrigation within 24-48 hours";
           details := "Install drip irrigation systems for efficient water use. Consider mulching to retain moisture.";
           timeline := "Immediate (0-2 days)";
           cost := "Medium";
           impact := "High - Prevents crop failure";
           seasonality := getSeasonalAdvice now "irrigation" location |}
    else if percentage moisture <? 30 then
      push recommendations
        {| rec_type := "Irrigation Management";
           category := "water_management";
           priority := "high";
           severity := "medium";
           message := "Soil moisture is below optimal levels. Regular irrigation recommended.";
           action := "Increase irrigation frequency by 30-50%";
           details := "Monitor soil moisture daily. Consider installing moisture sensors for precise irrigation timing.";
           timeline := "Short-term (1-2 weeks)";
           cost := "Low";
           impact := "Medium - Improves crop yield";
           seasonality := getSeasonalAdvice now "irrigation" location |}
    else if percentage moisture >? 85 then
      push recommendations
        {| rec_type := "Drainage Management";
           category := "water_management";
           priority := "high";
           severity := "medium";
           message := "Excessive soil moisture may lead to waterlogging and root rot.";
           action := "Improve drainage systems and reduce irrigation";
           details := "Install subsurface drainage tiles. Create raised beds for better drainage. Check for irrigation system leaks.";
           timeline := "Medium-term (2-4 weeks)";
           cost := "High";
           impact := "High - Prevents root diseases";
           seasonality := getSeasonalAdvice now "drainage" location |}
    else recommendations in
  let recommendations :=
    if ndvi indices <? 0.1 then
      push recommendations
        {| rec_type := "Urgent Revegetation";
           category := "vegetation";
           priority := "critical";
           severity := "high";
           message := "Extremely poor vegetation cover. Risk of soil erosion and degradation.";
           action := "Implement immediate soil stabilization and planting program";
           details := "Use erosion control blankets, plant fast-growing cover crops, apply organic mulch.";
           timeline := "Immediate (0-1 week)";
           cost := "High";
           impact := "Critical - Prevents soil loss";
           seasonality := getSeasonalAdvice now "planting" location |}
    else if ndvi indices <? 0.3 then
      push recommendations
        {| rec_type := "Vegetation Enhancement";
           category := "vegetation";
           priority := "high";
           severity := "medium";
           message := "Low vegetation density detected. Consider crop rotation or replanting.";
           action := "Plant cover crops or implement crop diversification";
           details := "Select drought-resistant varieties. Consider nitrogen-fixing legumes for soil improvement.";
           timeline := "Short-term (2-4 weeks)";
           cost := "Medium";
           impact := "Medium - Improves soil health";
           seasonality := getSeasonalAdvice now "planting" location |}
    else recommendations in
  let recommendations :=
    if clay c >? 60 then
      push recommendations
        {| rec_type := "Soil Structure Improvement";
           category := "soil_health";
           priority := "medium";
           severity := "low";
           message := "High clay content restricts water infiltration and root development.";
           action := "Add organic amendments to improve soil structure";
           details := "Apply 2-4 inches of compost annually. Use gypsum to improve clay aggregation. Avoid working wet clay soil.";
           timeline := "Long-term (6-12 months)";
           cost := "Medium";
           impact := "Medium - Improves soil workability";
           seasonality := getSeasonalAdvice now "soil_amendment" location |}
    else recommendations in
  let recommendations :=
    if sand c >? 70 then
      push recommendations
        {| rec_type := "Water Retention Enhancement";
           category := "soil_health";
           priority := "medium";
           severity := "medium";
           message := "Sandy soil has poor water and nutrient retention capacity.";
           action := "Increase organic matter content and implement frequent, light irrigation";
           details := "Add compost, biochar, or well-aged manure. Use slow-release fertilizers. Consider polymer soil conditioners.";
           timeline := "Medium-term (3-6 months)";
           cost := "Medium";
           impact := "High - Improves nutrient retention";
           seasonality := getSeasonalAdvice now "soil_amendment" location |}
    else recommendations in
  let recommendations :=
    if organicMatter c <? 2 then
      push recommendations
        {| rec_type := "Organic Matter Enhancement";
           category := "fertility";
           priority := "high";
           severity := "medium";
           message := "Low organic matter reduces soil fertility and water retention.";
           action := "Implement comprehensive organic matter building program";
           details := "Apply 25-50 lbs compost per 1000 sq ft. Plant cover crops. Use crop residue management. Consider vermicomposting.";
           timeline := "Long-term (12-24 months)";
           cost := "Medium";
           impact := "High - Transforms soil health";
           seasonality := getSeasonalAdvice now "organic_matter" location |}
    else recommendations in
  let recommendations :=
    if ph c <? 5.5 then
      push recommendations
        {| rec_type := "Severe Acidity Correction";
           category := "ph_management";
           priority := "high";
           severity := "high";
           message := "Severely acidic soil limits nutrient availability and microbial activity.";
           action := "Apply agricultural lime with ongoing pH monitoring";
           details := "Apply 2-4 tons/acre of ground limestone. Test pH every 6 months. Consider pelletized lime for easier application.";
           timeline := "Medium-term (6-12 months)";
           cost := "Medium";
           impact := "High - Unlocks soil nutrients";
           seasonality := getSeasonalAdvice now "liming" location |}
    else if ph c <? 6.2 then
      push recommendations
        {| rec_type := "Mild Acidity Adjustment";
           category := "ph_management";
           priority := "medium";
           severity := "low";
           message := "Slightly acidic soil may benefit from pH adjustment for optimal crop growth.";
           action := "Apply moderate lime application";
           details := "Apply 1-2 tons/acre of agricultural lime. Monitor pH annually. Consider organic amendments like wood ash.";
           timeline := "Medium-term (6-12 months)";
           cost := "Low";
           impact := "Medium - Optimizes nutrient uptake";
           seasonality := getSeasonalAdvice now "liming" location |}
    else if ph c >? 8.5 then
      push recommendations
        {| rec_type := "Alkalinity Reduction";
           category := "ph_management";
           priority := "high";
           severity := "high";
           message := "Highly alkaline soil restricts iron and zinc availability.";
           action := "Apply sulfur amendments and organic acidifiers";
           details := "Apply 10-20 lbs/1000 sq ft elemental sulfur. Use organic mulches. Consider iron sulfate for quick results.";
           timeline := "Long-term (12-18 months)";
           cost := "Medium";
           impact := "High - Prevents micronutrient deficiency";
           seasonality := getSeasonalAdvice now "acidification" location |}
    else recommendations in
  let recommendations :=
    if (ndvi indices >? 0.7) && (ndmi indices <? 0.3) then
      push recommendations
        {| rec_type := "Water Stress Management";
           category := "precision_agriculture";
           priority := "medium";
           severity := "medium";
           message := "Good vegetation cover but moisture stress detected in plants.";
           action := "Implement precision irrigation targeting plant water needs";
           details := "Use NDMI monitoring for irrigation scheduling. Consider deficit irrigation strategies during non-critical growth stages.";
           timeline := "Short-term (1-2 weeks)";
           cost := "Low";
           impact := "Medium - Optimizes water use efficiency";
           seasonality := getSeasonalAdvice now "precision_irrigation" location |}
    else recommendations in
  let recommendations :=
    addSoilHealthRecommendations now recommendations moisture composition
      indices location in
  let recommendations :=
    addCropRecommendations now recommendations moisture composition
      indices location in
  let recommendations :=
    addSustainabilityRecommendations now recommendations moisture
      composition indices location in
  recommendations.

(** [calculateConfidence(bestScene, allScenes)]; [now] is what
    [new Date()] returns. *)
Definition calculateConfidence (now : Date) (bestScene : Scene)
  (allScenes : list Scene) : string :=
  let confidence : JS.num := 100 in
  let confidence := confidence - cloudCover bestScene * 2 in
  let confidence :=
    if (Z.of_nat (length allScenes) <? 2)%Z then confidence - 20
    else confidence in
  let daysSinceCapture :=
    inject_Z (getTime now - getTime (date bestScene))
    / (1000 * 60 * 60 * 24) in
  let confidence :=
    if daysSinceCapture >? 30 then confidence - 10 else confidence in
  let confidence :=
    if daysSinceCapture >? 90 then confidence - 20 else confidence in
  let confidence := JS.max 10 (JS.min 100 confidence) in
  if confidence >? 80 then "high"
  else if confidence >? 60 then "medium"
  else "low".

Section Builtins.

(** [Math.sin] and [Math.PI], which have no rational model. *)
Variable Math_sin : JS.num -> JS.num.
Variable Math_PI : JS.num.

(** [calculateSoilTemperature(bands, location, date)] *)
Definition calculateSoilTemperature (bands : Bands) (location : Location)
  (date : Date) : Temperature :=
  let B11 := B11 bands in
  let B12 := B12 bands in
  let baseTemp : JS.num := 15 in
  let month : JS.num := inject_Z (getMonth date) in
  let seasonalAdjustment := 10 * Math_sin ((month - 3) * Math_PI / 6) in
  let latitudeAdjustment := (30 - JS.abs (lat location)) * 0.3 in
  let surfaceAdjustment := (B11 - B12) * 20 in
  let temperature :=
    baseTemp + seasonalAdjustment + latitudeAdjustment
    + surfaceAdjustment in
  {| celsius := JS.round (temperature * 10) / 10;
     fahrenheit := JS.round ((temperature * 9 / 5 + 32) * 10) / 10;
     temperature_description := getTemperatureDescription temperature;
     factors :=
       {| seasonal := JS.round (seasonalAdjustment * 10) / 10;
          latitude := JS.round (latitudeAdjustment * 10) / 10;
          surface := JS.round (surfaceAdjustment * 10) / 10 |} |}.

(** [analyzeSoilData(sentinelData, location)]; the [catch] block logs
    and rethrows, so a thrown error leaves the method as it was thrown.
    [scenes sentinelData = None] is a missing [scenes] property. *)
Definition analyzeSoilData (now : Date) (sentinelData : SentinelData)
  (location : Location) : outcome AnalysisResult :=
  match scenes sentinelData with
  | None => Throw "No satellite data available for analysis"
  | Some all =>
      if (Z.of_nat (length all) =? 0)%Z
      then Throw "No satellite data available for analysis"
      else
        match selectBestScene all with
        | None =>
            Throw "Cannot read properties of null (reading 'id')"
        | Some bestScene =>
            let indices := calculateVegetationIndices (bands bestScene) in
            let moisture :=
              analyzeSoilMoisture (bands bestScene) indices location in
            let composition :=
              analyzeSoilComposition (bands bestScene) location in
            let temperature :=
              calculateSoilTemperature (bands bestScene) location
                (date bestScene) in
            let recommendations :=
              generateRecommendations now moisture composition indices
                location in
            let confidence :=
              calculateConfidence now bestScene all in
            Return
              {| sceneUsed := scene_id bestScene;
                 analysisDate := now;
                 result_moisture := moisture;
                 result_composition := composition;
                 result_ndvi := ndvi indices;
                 result_temperature := temperature;
                 recommendations := recommendations;
                 confidence := confidence;
                 indices :=
                   {| ndvi := ndvi indices;
                      evi := evi indices;
                      ndmi := ndmi indices;
                      bsi := bsi indices |} |}
        end
  end.

End Builtins.

End SoilAnalysisService.

(** ** [AnalysisUtils] *)

Module AnalysisUtils.

(** The values a property of the [bands] object can hold. *)
Inductive value : Type :=
| VUndefined
| VNull
| VBoolean (b : bool)
| VNumber (n : JS.num)
| VString (s : string).

Definition typeof (v : value) : string :=
  match v with
  | VUndefined => "undefined"
  | VNull => "object"
  | VBoolean _ => "boolean"
  | VNumber _ => "number"
  | VString _ => "string"
  end.

(** [Object.values(obj)] *)
Definition Object_values (obj : gmap string value) : list value :=
  (map_to_list obj).*2.

(** The callback of [every] in [calculateIndices]:
    [typeof band === 'number' && band >= 0 && band <= 1]. *)
Definition validBand (band : value) : bool :=
  String.eqb (typeof band) "number"
  && match band with
     | VNumber n => (n >=? 0) && (n <=? 1)
     | _ => false
     end.

(** A destructured band as an operand of [+], [-], [*], [/]. A key the
    object lacks destructures to [undefined], which arithmetic reads as
    NaN. The last case is not reached: the arithmetic runs after the
    guard, under which every value the object holds is a number. *)
Definition operand (bands : gmap string value) (key : string) : JS.num :=
  match bands !! key with
  | None | Some VUndefined => JS.NaN
  | Some (VNumber n) => n
  | Some _ => JS.NaN
  end.

(** [safeCalculation(calculation)]; the callbacks it is given are
    arithmetic on numbers, which does not throw. *)
Definition safeCalculation (calculation : unit -> JS.num) : JS.num :=
  let result := calculation tt in
  if JS.isNaN result || negb (JS.isFinite result) then 0
  else JS.max (-1) (JS.min 1 result).

Record Indices : Type := {
  ndvi : JS.num;
  evi : JS.num;
  ndmi : JS.num;
  bsi : JS.num;
  savi : JS.num
}.

(** [calculateIndices(bands)] *)
Definition calculateIndices (bands : gmap string value) : outcome Indices :=
  let B02 := operand bands "B02" in
  let B04 := operand bands "B04" in
  let B08 := operand bands "B08" in
  let B11 := operand bands "B11" in
  let validBands := forallb validBand (Object_values bands) in
  if negb validBands then Throw "Invalid spectral band values"
  else
    let ndvi := safeCalculation (fun _ => (B08 - B04) / (B08 + B04)) in
    let evi :=
      safeCalculation (fun _ =>
        2.5 * ((B08 - B04) / (B08 + 6 * B04 - 7.5 * B02 + 1))) in
    let ndmi := safeCalculation (fun _ => (B08 - B11) / (B08 + B11)) in
    let bsi :=
      safeCalculation (fun _ =>
        ((B11 + B04) - (B08 + B02)) / ((B11 + B04) + (B08 + B02))) in
    let L : JS.num := 0.5 in
    let savi :=
      safeCalculation (fun _ => ((B08 - B04) / (B08 + B04 + L)) * (1 + L)) in
    Return {| ndvi := ndvi; evi := evi; ndmi := ndmi; bsi := bsi;
              savi := savi |}.

(** What the two validators return: [{ valid: true }] or
    [{ valid: false, error }]. *)
Record Validation : Type := {
  valid : bool;
  error : option string
}.

(** A value in a position where the guard before it has left numbers
    only. *)
Definition number (v : value) : JS.num :=
  match v with
  | VNumber n => n
  | _ => JS.NaN
  end.

(** [validateCoordinates(lat, lon)] *)
Definition validateCoordinates (lat lon : value) : Validation :=
  if negb (String.eqb (typeof lat) "number")
     || negb (String.eqb (typeof lon) "number")
  then {| valid := false; error := Some "Coordinates must be numbers" |}
  else
    let lat := number lat in
    let lon := number lon in
    if (lat <? -90) || (lat >? 90)
    then {| valid := false;
            error := Some "Latitude must be between -90 and 90" |}
    else if (lon <? -180) || (lon >? 180)
    then {| valid := false;
            error := Some "Longitude must be between -180 and 180" |}
    else {| valid := true; error := None |}.

(** The time value of a [Date] built from a string: [None] is the
    Invalid Date, whose [getTime()] is NaN. *)
Definition timeValue (d : option Z) : JS.num :=
  match d with
  | Some t => JS.Fin (inject_Z t)
  | None => JS.NaN
  end.

(** [validateDateRange(startDate, endDate)]. [start] and [end_] are
    [new Date(startDate)] and [new Date(endDate)], [now] is what
    [new Date()] returns. *)
Definition validateDateRange (now : Date) (start end_ : option Z)
  : Validation :=
  let now := JS.Fin (inject_Z (getTime now)) in
  if JS.isNaN (timeValue start) || JS.isNaN (timeValue end_)
  then {| valid := false; error := Some "Invalid date format" |}
  else if timeValue start >? timeValue end_
  then {| valid := false;
          error := Some "Start date must be before end date" |}
  else if timeValue end_ >? now
  then {| valid := false;
          error := Some "End date cannot be in the future" |}
  else
    let daysDiff :=
      (timeValue end_ - timeValue start) / (1000 * 60 * 60 * 24) in
    if daysDiff >? 365
    then {| valid := false;
            error := Some "Date range cannot exceed 365 days" |}
    else {| valid := true; error := None |}.

Record Thresholds : Type := {
  veryLow : JS.num;
  low : JS.num;
  moderate : JS.num;
  high : JS.num
}.

(** [getLevel(percentage, thresholds)] *)
Definition getLevel (percentage : JS.num) (thresholds : Thresholds)
  : string :=
  if percentage <=? veryLow thresholds then "very_low"
  else if percentage <=? low thresholds then "low"
  else if percentage <=? moderate thresholds then "moderate"
  else if percentage <=? high thresholds then "high"
  else "very_high".

(** The [factors] object of [calculateConfidence]; [None] is a property
    the object lacks. *)
Record ConfidenceFactors : Type := {
  cloudCover : option JS.num;
  dataAgeDays : option JS.num;
  sceneCount : option JS.num;
  seasonalFactor : option JS.num
}.

(** A property in the position of a condition: [undefined], 0 and NaN
    are falsy. *)
Definition truthy (p : option JS.num) : bool :=
  match p with
  | None => false
  | Some JS.NaN => false
  | Some (JS.Fin q) => negb (Qeq_bool q 0)
  | Some _ => true
  end.

(** A property in the position of an operand. *)
Definition get (p : option JS.num) : JS.num :=
  match p with
  | Some n => n
  | None => JS.NaN
  end.

(** [calculateConfidence(factors)] *)
Definition calculateConfidence (factors : ConfidenceFactors) : JS.num :=
  let score : JS.num := 100 in
  let score :=
    if truthy (cloudCover factors)
    then score - JS.min 50 (get (cloudCover factors) * 2)
    else score in
  let score :=
    if truthy (dataAgeDays factors) then
      let score :=
        if get (dataAgeDays factors) >? 30 then score - 10 else score in
      let score :=
        if get (dataAgeDays factors) >? 90 then score - 20 else score in
      let score :=
        if get (dataAgeDays factors) >? 180 then score - 30 else score in
      score
    else score in
  let score :=
    if truthy (sceneCount factors) then
      let score :=
        if get (sceneCount factors) <? 2 then score - 15 else score in
      let score :=
        if get (sceneCount factors) === 1 then score - 10 else score in
      score
    else score in
  let score :=
    if truthy (seasonalFactor factors)
    then score + get (seasonalFactor factors) * 10
    else score in
  JS.max 0 (JS.min 100 (JS.round score)).

(** [applyEnvironmentalCorrections(value, location, date)] *)
Definition applyEnvironmentalCorrections (value : JS.num)
  (location : Location) (date : Date) : JS.num :=
  let lat := lat location in
  let month := getMonth date in
  let correctedValue := value in
  let absLat := JS.abs lat in
  let correctedValue :=
    if absLat <? 23.5 then correctedValue * 1.1
    else if absLat >? 66.5 then correctedValue * 0.8
    else correctedValue in
  let correctedValue :=
    if lat >? 0 then
      if (5 <=? month)%Z && (month <=? 8)%Z then correctedValue * 0.9
      else if (11 <=? month)%Z || (month <=? 2)%Z
      then correctedValue * 1.1
      else correctedValue
    else
      if (11 <=? month)%Z || (month <=? 2)%Z then correctedValue * 0.9
      else if (5 <=? month)%Z && (month <=? 8)%Z
      then correctedValue * 1.1
      else correctedValue in
  correctedValue.

Record Area : Type := {
  minLat : JS.num;
  maxLat : JS.num;
  minLon : JS.num;
  maxLon : JS.num
}.

(** [isOverLand(lat, lon)] *)
Definition isOverLand (lat lon : JS.num) : bool :=
  if (lat >? 85) || (lat <? -85) then false
  else
    let continentalAreas :=
      [ {| minLat := -55; maxLat := 75; minLon := -170; maxLon := -30 |};
        {| minLat := -35; maxLat := 80; minLon := -30; maxLon := 60 |};
        {| minLat := -50; maxLat := 80; minLon := 60; maxLon := 180 |} ] in
    existsb
      (fun area =>
         (lat >=? minLat area) && (lat <=? maxLat area)
         && (lon >=? minLon area) && (lon <=? maxLon area))
      continentalAreas.

End AnalysisUtils.

Import SoilAnalysisService.

(** ** Vocabulary of the statements *)

(** Every band of the reading is a reflectance in [0,1]. *)
Definition validReading (b : Bands) : Prop :=
  JS.within 0 1 (B02 b) /\ JS.within 0 1 (B03 b) /\ JS.within 0 1 (B04 b)
  /\ JS.within 0 1 (B08 b) /\ JS.within 0 1 (B8A b)
  /\ JS.within 0 1 (B11 b) /\ JS.within 0 1 (B12 b).

(** The four formulas [calculateVegetationIndices] clamps, as it writes
    them. *)
Definition ndviFormula (b : Bands) : JS.num :=
  (B08 b - B04 b) / (B08 b + B04 b).

Definition eviFormula (b : Bands) : JS.num :=
  2.5 * ((B08 b - B04 b) / (B08 b + 6 * B04 b - 7.5 * B02 b + 1)).

Definition ndmiFormula (b : Bands) : JS.num :=
  (B08 b - B11 b) / (B08 b + B11 b).

Definition bsiFormula (b : Bands) : JS.num :=
  ((B11 b + B04 b) - (B08 b + B02 b)) / ((B11 b + B04 b) + (B08 b + B02 b)).

(** A formula is degenerate when it evaluates to NaN or to an infinity. *)
Definition degenerate (a : JS.num) : Prop :=
  JS.isNaN a || negb (JS.isFinite a) = true.

(** A reading with no signal in any band. *)
Definition darkReading : Bands :=
  {| B02 := 0; B03 := 0; B04 := 0; B08 := 0; B8A := 0; B11 := 0; B12 := 0 |}.

(** A reading whose EVI denominator [B08 + 6*B04 - 7.5*B02 + 1] is zero
    under a negative numerator. *)
Definition eviPoleReading : Bands :=
  {| B02 := 1; B03 := 0.5; B04 := 1; B08 := 0.5; B8A := 0.5;
     B11 := 0.5; B12 := 0.5 |}.

(** A reading with signal everywhere but in the two SWIR bands. *)
Definition swirDarkReading : Bands :=
  {| B02 := 0.08; B03 := 0.1; B04 := 0.12; B08 := 0.25; B8A := 0.24;
     B11 := 0; B12 := 0 |}.

(** A dry reading, NDMI = (0.25 - 0.75) / (0.25 + 0.75) = -0.5, whose
    SWIR1 is ninety-six times its SWIR2. *)
Definition drySteepReading : Bands :=
  {| B02 := 0.125; B03 := 0.125; B04 := 0.125; B08 := 0.25; B8A := 0.25;
     B11 := 0.75; B12 := 0.0078125 |}.

(** A dry reading, NDMI = -0.5, whose SWIR1 is three times its SWIR2. *)
Definition dryMildReading : Bands :=
  {| B02 := 0.125; B03 := 0.125; B04 := 0.125; B08 := 0.25; B8A := 0.25;
     B11 := 0.75; B12 := 0.25 |}.

(** A dry reading, NDMI = -0.5, with equal SWIR bands. *)
Definition dryFlatReading : Bands :=
  {| B02 := 0.125; B03 := 0.125; B04 := 0.125; B08 := 0.25; B8A := 0.25;
     B11 := 0.75; B12 := 0.75 |}.

Definition fresno : Location := {| lat := 36.7; lon := -119.8 |}.

(** The stages of [analyzeSoilMoisture]: the four-segment scale, the
    latitude correction, and [moistureIndex] after the final clamp. *)
Definition moistureScale (ndmi : JS.num) : JS.num :=
  if ndmi >? 0.4 then 70 + (ndmi - 0.4) * 50
  else if ndmi >? 0.1 then 40 + (ndmi - 0.1) * 100
  else if ndmi >? (-0.1) then 15 + (ndmi + 0.1) * 125
  else 5 + JS.max 0 ((ndmi + 0.3) * 50).

Definition latitudeCorrection (lat : JS.num) (moistureIndex : JS.num)
  : JS.num :=
  if JS.abs lat <? 23.5 then moistureIndex * 1.05
  else if JS.abs lat >? 60 then moistureIndex * 0.95
  else moistureIndex.

Definition moistureIndex (bands : Bands) (indices : Indices)
  (location : Location) : JS.num :=
  JS.max 5
    (JS.min 95
       (latitudeCorrection (lat location)
          (moistureScale (ndmi indices)
           * (0.9 + (B11 bands / B12 bands - 1) * 0.1)))).

(** The factor [analyzeSoilMoisture] multiplies in for the latitude. *)
Definition latitudeFactor (lat : JS.num) : Q :=
  if JS.abs lat <? 23.5 then 1.05
  else if JS.abs lat >? 60 then 0.95
  else 1.

(** The factor [0.9 + (swirRatio - 1) * 0.1] for a finite SWIR ratio. *)
Definition swirFactor (b11 b12 : Q) : Q :=
  (0.9 + (b11 / b12 - 1) * 0.1)%Q.

(** The four NDMI segments of the moisture scale. *)
Inductive segment : Type := VeryWet | Moderate | Low | VeryDry.

Definition inSegment (s : segment) (n : Q) : Prop :=
  match s with
  | VeryWet => (0.4 < n)%Q
  | Moderate => (0.1 < n /\ n <= 0.4)%Q
  | Low => (-0.1 < n /\ n <= 0.1)%Q
  | VeryDry => (n <= -0.1)%Q
  end.

(** Two numbers in the order [<=] of JavaScript. *)
Definition numLe (a b : JS.num) : Prop := (a <=? b) = true.

(** An [Indices] record around a given NDMI. *)
Definition withNdmi (i : Indices) (n : JS.num) : Indices :=
  {| ndvi := ndvi i; evi := evi i; ndmi := n; bsi := bsi i |}.

(** Two recommendations that agree on every field but [seasonality]. *)
Definition sameButSeasonality (r1 r2 : Recommendation) : Prop :=
  rec_type r1 = rec_type r2 /\ category r1 = category r2
  /\ priority r1 = priority r2 /\ severity r1 = severity r2
  /\ message r1 = message r2 /\ action r1 = action r2
  /\ details r1 = details r2 /\ timeline r1 = timeline r2
  /\ cost r1 = cost r2 /\ impact r1 = impact r2.

(** The list holds a critical "Critical Irrigation" recommendation. *)
Definition hasCriticalIrrigation (l : list Recommendation) : Prop :=
  exists r, In r l /\ rec_type r = "Critical Irrigation"
            /\ priority r = "critical".

(** A value of the band mapping that is a number in [0,1]. *)
Definition numberIn01 (v : AnalysisUtils.value) : Prop :=
  exists q, v = AnalysisUtils.VNumber (JS.Fin q) /\ (0 <= q /\ q <= 1)%Q.

(** Clock readings in March, April and July, and a scene captured at
    the first of them. *)
Definition march : Date := {| getTime := 1741000000000; getMonth := 2 |}.
Definition april : Date := {| getTime := 1744000000000; getMonth := 3 |}.
Definition july : Date := {| getTime := 1751500000000; getMonth := 6 |}.

(** A band mapping with two valid bands, and one with a band above 1. *)
Definition twoBands : gmap string AnalysisUtils.value :=
  <["B08" := AnalysisUtils.VNumber 0.25]>
    (<["B04" := AnalysisUtils.VNumber 0.12]> ∅).

Definition brightBands : gmap string AnalysisUtils.value :=
  <["B08" := AnalysisUtils.VNumber 1.25]>
    (<["B04" := AnalysisUtils.VNumber 0.12]> ∅).

Definition sceneToday : Scene :=
  {| scene_id := "S2A_T10SGF"; date := march; cloudCover := 8;
     bands := {| B02 := 0.08; B03 := 0.1; B04 := 0.12; B08 := 0.25;
                 B8A := 0.24; B11 := 0.20; B12 := 0.15 |} |}.

(** [r] is at least as good a choice as [t]: less cloud, or as much
    cloud and captured no earlier. *)
Definition preferred (r t : Scene) : Prop :=
  (cloudCover r < cloudCover t)%Q
  \/ ((cloudCover r == cloudCover t)%Q
      /\ (getTime (date t) <= getTime (date r))%Z).

(** ** Vocabulary of the further properties *)

(** The age of a scene in milliseconds at a clock reading. *)
Definition ageMs (now : Date) (s : Scene) : Z :=
  (getTime now - getTime (date s))%Z.

(** Thirty and ninety days in milliseconds. *)
Definition days30 : Z := 2592000000.
Definition days90 : Z := 7776000000.

(** The text [getSeasonalAdvice] falls back to, and the practices its
    table has. *)
Definition fallbackAdvice : string :=
  "Consult local agricultural extension for timing".

Definition tablePractices : list string :=
  ["irrigation"; "planting"; "soil_amendment"; "liming"].

(** The types of the recommendations each group of rules pushes, in the
    order of the source. *)
Definition waterTypes (m : Moisture) : list string :=
  if percentage m <? 15 then ["Critical Irrigation"]
  else if percentage m <? 30 then ["Irrigation Management"]
  else if percentage m >? 85 then ["Drainage Management"]
  else [].

Definition vegetationTypes (i : Indices) : list string :=
  if ndvi i <? 0.1 then ["Urgent Revegetation"]
  else if ndvi i <? 0.3 then ["Vegetation Enhancement"]
  else [].

Definition clayTypes (c : Composition) : list string :=
  if clay c >? 60 then ["Soil Structure Improvement"] else [].

Definition sandTypes (c : Composition) : list string :=
  if sand c >? 70 then ["Water Retention Enhancement"] else [].

Definition organicTypes (c : Composition) : list string :=
  if organicMatter c <? 2 then ["Organic Matter Enhancement"] else [].

Definition phTypes (c : Composition) : list string :=
  if ph c <? 5.5 then ["Severe Acidity Correction"]
  else if ph c <? 6.2 then ["Mild Acidity Adjustment"]
  else if ph c >? 8.5 then ["Alkalinity Reduction"]
  else [].

Definition stressTypes (i : Indices) : list string :=
  if (ndvi i >? 0.7) && (ndmi i <? 0.3) then ["Water Stress Management"]
  else [].

Definition soilHealthTypes (c : Composition) (i : Indices) : list string :=
  (if (organicMatter c <? 3) && (ndvi i <? 0.5)
   then ["Soil Biology Enhancement"] else [])
  ++ (if (sand c >? 60) && (ndvi i <? 0.4)
      then ["Erosion Prevention"] else []).

Definition cropTypes (m : Moisture) (c : Composition) : list string :=
  if ((clay c >? 50) && (percentage m >? 60))
     || ((sand c >? 60) && (percentage m <? 40))
     || ((ph c >=? 6.0) && (ph c <=? 7.5))
  then ["Optimal Crop Selection"] else [].

Definition sustainabilityTypes (c : Composition) (i : Indices)
  : list string :=
  (if organicMatter c <? 4 then ["Carbon Sequestration"] else [])
  ++ (if ndvi i <? 0.6 then ["Biodiversity Enhancement"] else []).

Definition firedTypes (m : Moisture) (c : Composition) (i : Indices)
  : list string :=
  waterTypes m ++ vegetationTypes i ++ clayTypes c ++ sandTypes c
  ++ organicTypes c ++ phTypes c ++ stressTypes i ++ soilHealthTypes c i
  ++ cropTypes m c ++ sustainabilityTypes c i.

(** The reading as the object [calculateIndices] takes. *)
Definition bandsObject (b : Bands) : gmap string AnalysisUtils.value :=
  <["B02" := AnalysisUtils.VNumber (B02 b)]>
    (<["B03" := AnalysisUtils.VNumber (B03 b)]>
       (<["B04" := AnalysisUtils.VNumber (B04 b)]>
          (<["B08" := AnalysisUtils.VNumber (B08 b)]>
             (<["B8A" := AnalysisUtils.VNumber (B8A b)]>
                (<["B11" := AnalysisUtils.VNumber (B11 b)]>
                   (<["B12" := AnalysisUtils.VNumber (B12 b)]> ∅)))))).

(** What [safeCalculation] makes of a formula. *)
Definition guarded (formula : JS.num) : JS.num :=
  AnalysisUtils.safeCalculation (fun _ => formula).

(** The rank of a level name, for comparing levels. *)
Definition levelRank (level : string) : Z :=
  if String.eqb level "very_low" then 0
  else if String.eqb level "low" then 1
  else if String.eqb level "moderate" then 2
  else if String.eqb level "high" then 3
  else 4.

(** Thresholds in increasing order. *)
Definition orderedThresholds (t : AnalysisUtils.Thresholds) : Prop :=
  exists a b c d,
    AnalysisUtils.veryLow t = JS.Fin a /\ AnalysisUtils.low t = JS.Fin b
    /\ AnalysisUtils.moderate t = JS.Fin c /\ AnalysisUtils.high t = JS.Fin d
    /\ (a <= b /\ b <= c /\ c <= d)%Q.


(** The month six months on. *)
Definition oppositeMonth (d : Date) : Date :=
  {| getTime := getTime d; getMonth := (getMonth d + 6) mod 12 |}.

(** The same place mirrored in the equator. *)
Definition mirrored (l : Location) : Location :=
  {| lat := JS.neg (lat l); lon := lon l |}.

(** Readings, scenes and factor objects the statements are tried on. *)
Definition sceneLater : Scene :=
  {| scene_id := "S2B_T10SGF"; date := april; cloudCover := 8;
     bands := dryFlatReading |}.

Definition clearScene : Scene :=
  {| scene_id := "S2A_T10SGG"; date := march; cloudCover := 4;
     bands := dryFlatReading |}.

Definition usualThresholds : AnalysisUtils.Thresholds :=
  {| AnalysisUtils.veryLow := 15; AnalysisUtils.low := 30;
     AnalysisUtils.moderate := 60; AnalysisUtils.high := 80 |}.


(** The recommendations of the list have these types, in this order. *)
Definition typesAre (types : list string) (l : list Recommendation)
  : Prop :=
  map rec_type l = types.

(** The types of the three water-management recommendations. *)
Definition waterNames : list string :=
  ["Critical Irrigation"; "Irrigation Management"; "Drainage Management"].


(** A year of 365 days in milliseconds. *)
Definition days365 : Z := 31536000000.

(** ** Facts about JavaScript numbers *)

Lemma Qltb_lt (x y : Q) : JS.Qltb x y = true <-> (x < y)%Q.
Proof.
  unfold JS.Qltb. rewrite negb_true_iff.
  destruct (Qle_bool y x) eqn:E.
  - apply Qle_bool_iff in E. split; [discriminate | intros H; lra].
  - split; [intros _ | reflexivity].
    destruct (Qlt_le_dec x y) as [H | H]; [exact H |].
    apply Qle_bool_iff in H. congruence.
Qed.

Lemma Qltb_ge (x y : Q) : JS.Qltb x y = false <-> (y <= x)%Q.
Proof.
  destruct (JS.Qltb x y) eqn:E.
  - apply Qltb_lt in E. split; [discriminate | intros H; lra].
  - split; [intros _ | reflexivity].
    destruct (Qlt_le_dec x y) as [H | H]; [| exact H].
    apply Qltb_lt in H. congruence.
Qed.

Lemma Qeq_bool_false (x y : Q) : Qeq_bool x y = false <-> ~ (x == y)%Q.
Proof.
  split.
  - intros E H. apply Qeq_bool_iff in H. congruence.
  - intros H. destruct (Qeq_bool x y) eqn:E; [| reflexivity].
    apply Qeq_bool_iff in E. contradiction.
Qed.

(** Case analysis on every rational comparison in the goal, each case
    with the order fact it stands for. *)
Ltac q_cases :=
  repeat match goal with
  | |- context [JS.Qltb ?a ?b] =>
      let E := fresh "E" in
      destruct (JS.Qltb a b) eqn:E;
      [apply Qltb_lt in E | apply Qltb_ge in E]; cbv beta iota
  | |- context [Qeq_bool ?a ?b] =>
      let E := fresh "E" in
      destruct (Qeq_bool a b) eqn:E;
      [apply Qeq_bool_iff in E | apply Qeq_bool_false in E]; cbv beta iota
  end.

Ltac js_unfold :=
  unfold JS.gtb, JS.geb, JS.leb, JS.max, JS.min, JS.sub, JS.add, JS.mul,
    JS.div, JS.neg, JS.ltb, JS.eqb, JS.scale_inf, JS.abs, JS.round in *.

Lemma clamp_within (lo hi : Q) (x : JS.num) :
  (lo <= hi)%Q -> x <> JS.NaN ->
  JS.within lo hi (JS.max lo (JS.min hi x)).
Proof.
  intros Hlh Hx. destruct x as [| | | q]; [congruence | | |];
    js_unfold; q_cases; simpl; lra.
Qed.

(** [safeCalculation] always lands in [-1,1], and is 0 on a NaN or an
    infinity. *)
Lemma safeCalculation_within (calculation : unit -> JS.num) :
  JS.within (-1) 1 (AnalysisUtils.safeCalculation calculation).
Proof.
  unfold AnalysisUtils.safeCalculation.
  destruct (calculation tt) as [| | | q]; simpl; try lra.
  js_unfold; q_cases; simpl; lra.
Qed.

Lemma safeCalculation_degenerate (calculation : unit -> JS.num) :
  degenerate (calculation tt) ->
  AnalysisUtils.safeCalculation calculation = JS.Fin 0.
Proof.
  unfold degenerate, AnalysisUtils.safeCalculation. intros H.
  rewrite H. reflexivity.
Qed.

(** The service clamps the four formulas without that guard. *)
Lemma calculateVegetationIndices_formulas (b : Bands) :
  calculateVegetationIndices b =
  {| ndvi := JS.max (-1) (JS.min 1 (ndviFormula b));
     evi := JS.max (-1) (JS.min 1 (eviFormula b));
     ndmi := JS.max (-1) (JS.min 1 (ndmiFormula b));
     bsi := JS.max (-1) (JS.min 1 (bsiFormula b)) |}.
Proof. reflexivity. Qed.

(** So an index is NaN when its formula is, and is in [-1,1] when it is
    not. *)
Lemma clamped_index (f : JS.num) :
  (f = JS.NaN -> JS.max (-1) (JS.min 1 f) = JS.NaN)
  /\ (f <> JS.NaN -> JS.within (-1) 1 (JS.max (-1) (JS.min 1 f))).
Proof.
  split.
  - intros ->. reflexivity.
  - intros Hf. apply clamp_within; [lra | exact Hf].
Qed.

Lemma calculateVegetationIndices_within (b : Bands) :
  (ndviFormula b <> JS.NaN ->
   JS.within (-1) 1 (ndvi (calculateVegetationIndices b)))
  /\ (eviFormula b <> JS.NaN ->
      JS.within (-1) 1 (evi (calculateVegetationIndices b)))
  /\ (ndmiFormula b <> JS.NaN ->
      JS.within (-1) 1 (ndmi (calculateVegetationIndices b)))
  /\ (bsiFormula b <> JS.NaN ->
      JS.within (-1) 1 (bsi (calculateVegetationIndices b))).
Proof.
  rewrite calculateVegetationIndices_formulas. cbn [ndvi evi ndmi bsi].
  repeat split; intros H; apply clamped_index; exact H.
Qed.

(** C1. On the reading with no signal the NDVI, NDMI and BSI formulas of
    [calculateVegetationIndices] are 0/0 and the indices it returns are
    NaN, not 0 and not in [-1,1]; on a reading at the pole of the EVI
    formula the formula is -Infinity and the index returned is -1, not
    0. Both readings have every band in [0,1]. *)
Theorem calculateVegetationIndices_propagates_NaN :
  validReading darkReading
  /\ ndvi (calculateVegetationIndices darkReading) = JS.NaN
  /\ ndmi (calculateVegetationIndices darkReading) = JS.NaN
  /\ bsi (calculateVegetationIndices darkReading) = JS.NaN
  /\ validReading eviPoleReading
  /\ eviFormula eviPoleReading = JS.NegInf
  /\ evi (calculateVegetationIndices eviPoleReading) = JS.Fin (-1).
Proof.
  repeat split; try reflexivity; simpl; lra.
Qed.

(** ** The scene selector *)

Lemma preferred_refl (s : Scene) : preferred s s.
Proof. right. split; [reflexivity | lia]. Qed.

Lemma preferred_trans (r s t : Scene) :
  preferred r s -> preferred s t -> preferred r t.
Proof.
  unfold preferred. intros [H1 | [H1 T1]] [H2 | [H2 T2]].
  - left. lra.
  - left. lra.
  - left. lra.
  - right. split; [lra | lia].
Qed.

Lemma selectBestScene_step_Some (b c : Scene) :
  exists r, selectBestScene_step (Some b) c = Some r
            /\ (r = b \/ r = c) /\ preferred r b /\ preferred r c.
Proof.
  unfold selectBestScene_step, preferred.
  destruct (JS.Qltb (cloudCover c) (cloudCover b)) eqn:E1.
  - apply Qltb_lt in E1. exists c. repeat split; auto.
    right. split; [reflexivity | lia].
  - apply Qltb_ge in E1.
    destruct (Qeq_bool (cloudCover c) (cloudCover b)) eqn:E2; simpl.
    + apply Qeq_bool_iff in E2.
      destruct (getTime (date c) >? getTime (date b))%Z eqn:E3.
      * apply Z.gtb_lt in E3. exists c. repeat split; auto.
        -- right. split; [exact E2 | lia].
        -- right. split; [reflexivity | lia].
      * assert (getTime (date c) <= getTime (date b))%Z
          by (rewrite Z.gtb_ltb in E3; apply Z.ltb_ge in E3; exact E3).
        exists b. repeat split; auto.
        -- right. split; [reflexivity | lia].
        -- right. split; [lra | assumption].
    + apply Qeq_bool_false in E2. exists b. repeat split; auto.
      * right. split; [reflexivity | lia].
      * left. destruct (Qlt_le_dec (cloudCover b) (cloudCover c)); [assumption |].
        exfalso. apply E2. lra.
Qed.

(** The invariant of the [reduce]: once a scene is held, the scene held
    after the rest of the list is one of those seen and is preferred to
    all of them. *)
Lemma selectBestScene_fold (l : list Scene) :
  forall b, exists r,
    fold_left selectBestScene_step l (Some b) = Some r
    /\ In r (b :: l)
    /\ forall t, In t (b :: l) -> preferred r t.
Proof.
  induction l as [| c l IH]; intros b.
  - exists b. simpl. repeat split; auto.
    intros t [<- | []]. apply preferred_refl.
  - destruct (selectBestScene_step_Some b c) as (m & Hm & Hin & Pb & Pc).
    destruct (IH m) as (r & Hr & Hrin & Hpref).
    exists r.
    change (fold_left selectBestScene_step (c :: l) (Some b))
      with (fold_left selectBestScene_step l
              (selectBestScene_step (Some b) c)).
    rewrite Hm. split; [exact Hr |]. split.
    + destruct Hrin as [<- | Hrin].
      * destruct Hin as [-> | ->]; simpl; auto.
      * simpl. auto.
    + intros t [<- | [<- | Ht]].
      * apply preferred_trans with m; [apply Hpref; left; reflexivity | exact Pb].
      * apply preferred_trans with m; [apply Hpref; left; reflexivity | exact Pc].
      * apply Hpref. right. exact Ht.
Qed.

Lemma selectBestScene_cons (s : Scene) (rest : list Scene) :
  exists best,
    selectBestScene (s :: rest) = Some best
    /\ In best (s :: rest)
    /\ forall t, In t (s :: rest) -> preferred best t.
Proof.
  unfold selectBestScene.
  change (fold_left selectBestScene_step (s :: rest) None)
    with (fold_left selectBestScene_step rest (Some s)).
  apply selectBestScene_fold.
Qed.

(** C3. On a non-empty list the selector returns a scene of least cloud
    cover, and no scene with that cloud cover was captured later than the
    one returned; on cloud covers [10,5,5] whose two 5-scenes have
    distinct dates it returns the later of the two. *)
Theorem selectBestScene_least_cloud_then_latest :
  (forall scenes : list Scene, scenes <> [] ->
     exists best,
       selectBestScene scenes = Some best
       /\ In best scenes
       /\ (forall s, In s scenes -> (cloudCover best <= cloudCover s)%Q)
       /\ (forall s, In s scenes ->
             (cloudCover s == cloudCover best)%Q ->
             (getTime (date s) <= getTime (date best))%Z))
  /\ (forall s1 s2 s3 : Scene,
        (cloudCover s1 == 10)%Q -> (cloudCover s2 == 5)%Q ->
        (cloudCover s3 == 5)%Q ->
        getTime (date s2) <> getTime (date s3) ->
        selectBestScene [s1; s2; s3]
        = Some (if (getTime (date s2) <? getTime (date s3))%Z
                then s3 else s2)).
Proof.
  split.
  - intros [| s rest] Hne; [congruence |].
    destruct (selectBestScene_cons s rest) as (best & Hb & Hin & Hpref).
    exists best. repeat split; auto.
    + intros t Ht. destruct (Hpref t Ht) as [H | [H _]]; lra.
    + intros t Ht Heq. destruct (Hpref t Ht) as [H | [_ H]]; [lra | exact H].
  - intros s1 s2 s3 H1 H2 H3 Hd.
    unfold selectBestScene, selectBestScene_step. simpl.
    assert (E1 : JS.Qltb (cloudCover s2) (cloudCover s1) = true)
      by (apply Qltb_lt; lra).
    assert (E2 : JS.Qltb (cloudCover s3) (cloudCover s2) = false)
      by (apply Qltb_ge; lra).
    assert (E3 : Qeq_bool (cloudCover s3) (cloudCover s2) = true)
      by (apply Qeq_bool_iff; lra).
    rewrite E1, E2, E3. simpl. rewrite Z.gtb_ltb.
    destruct (getTime (date s2) <? getTime (date s3))%Z; reflexivity.
Qed.

Lemma selectBestScene_least_cloud_then_latest_witness :
  selectBestScene [sceneToday] = Some sceneToday
  /\ selectBestScene
       [ {| scene_id := "a"; date := march; cloudCover := 10;
            bands := darkReading |};
         {| scene_id := "b"; date := march; cloudCover := 5;
            bands := darkReading |};
         {| scene_id := "c"; date := july; cloudCover := 5;
            bands := darkReading |} ]
     = Some {| scene_id := "c"; date := july; cloudCover := 5;
               bands := darkReading |}.
Proof.
  split.
  - destruct (proj1 selectBestScene_least_cloud_then_latest [sceneToday])
      as (best & Hb & [<- | []] & _); [discriminate | exact Hb].
  - apply (proj2 selectBestScene_least_cloud_then_latest
             {| scene_id := "a"; date := march; cloudCover := 10;
                bands := darkReading |}
             {| scene_id := "b"; date := march; cloudCover := 5;
                bands := darkReading |}
             {| scene_id := "c"; date := july; cloudCover := 5;
                bands := darkReading |});
      simpl; [reflexivity | reflexivity | reflexivity | lia].
Defined.

(** C9. On the empty list the selector returns [null]; on a non-empty
    list it returns one of the scenes of the list. *)
Theorem selectBestScene_returns_member :
  selectBestScene [] = None
  /\ forall (s : Scene) (rest : list Scene),
       exists best, selectBestScene (s :: rest) = Some best
                    /\ In best (s :: rest).
Proof.
  split; [reflexivity |].
  intros s rest.
  destruct (selectBestScene_cons s rest) as (best & Hb & Hin & _).
  exists best. split; assumption.
Qed.

(** ** The entry point *)

(** C4. With no [scenes] property or an empty [scenes] array the entry
    point throws the no-data error, and an error carries no result; with
    at least one scene it returns a result, whatever [Math.sin],
    [Math.PI], the clock and the location are. *)
Theorem analyzeSoilData_no_data_iff_no_scene
  (Math_sin : JS.num -> JS.num) (Math_PI : JS.num) (now : Date)
  (location : Location) :
  analyzeSoilData Math_sin Math_PI now {| scenes := None |} location
  = Throw "No satellite data available for analysis"
  /\ analyzeSoilData Math_sin Math_PI now {| scenes := Some [] |} location
     = Throw "No satellite data available for analysis"
  /\ forall (s : Scene) (rest : list Scene),
       exists result,
         analyzeSoilData Math_sin Math_PI now
           {| scenes := Some (s :: rest) |} location
         = Return result.
Proof.
  split; [reflexivity |]. split; [reflexivity |].
  intros s rest.
  destruct (selectBestScene_cons s rest) as (best & Hb & _).
  cbv beta delta [analyzeSoilData]. cbn [scenes].
  destruct (Z.of_nat (length (s :: rest)) =? 0)%Z eqn:E.
  - apply Z.eqb_eq in E. simpl length in E. lia.
  - rewrite Hb. eexists. reflexivity.
Qed.

(** ** The confidence scorer *)

(** C6, as the code has it. A single scene with cloud cover 8 captured
    at the time the clock shows scores 100 - 16 - 20 = 64, which is
    "medium". *)
Theorem calculateConfidence_single_fresh_scene (now : Date) (s : Scene) :
  (cloudCover s == 8)%Q ->
  getTime (date s) = getTime now ->
  calculateConfidence now s [s] = "medium".
Proof.
  intros Hc Ht. unfold calculateConfidence.
  rewrite Ht, Z.sub_diag.
  change (JS.Fin (inject_Z 0) / (1000 * 60 * 60 * 24) >? 30) with false.
  change (JS.Fin (inject_Z 0) / (1000 * 60 * 60 * 24) >? 90) with false.
  change (Z.of_nat (length [s]) <? 2)%Z with true.
  cbv iota. js_unfold.
  q_cases; try reflexivity; lra.
Qed.

Lemma calculateConfidence_single_fresh_scene_witness :
  calculateConfidence march sceneToday [sceneToday] = "medium".
Proof.
  apply calculateConfidence_single_fresh_scene; reflexivity.
Defined.

(** C6, as the claim has it, fails: the only scene, cloud cover 8, age 0
    days, is not scored "high". *)
Lemma calculateConfidence_single_fresh_scene_not_high :
  cloudCover sceneToday = 8%Q
  /\ (getTime march - getTime (date sceneToday) = 0)%Z
  /\ calculateConfidence march sceneToday [sceneToday] <> "high".
Proof.
  split; [reflexivity |]. split; [reflexivity |].
  vm_compute. discriminate.
Qed.

(** ** The stages of the moisture estimator *)

Lemma analyzeSoilMoisture_stages (b : Bands) (i : Indices) (l : Location) :
  analyzeSoilMoisture b i l =
  {| percentage := JS.round (moistureIndex b i l * 100) / 100;
     level := getMoistureLevel (moistureIndex b i l);
     description := getMoistureDescription (moistureIndex b i l);
     ndmiValue := JS.round (ndmi i * 1000) / 1000 |}.
Proof. reflexivity. Qed.

(** ** Dividing two reflectances *)

Lemma Qdiv_nonneg (a b : Q) : (0 <= a -> 0 < b -> 0 <= a / b)%Q.
Proof.
  intros Ha Hb. apply Qle_shift_div_l; [exact Hb | lra].
Qed.

(** Two reflectances that are not both zero have a ratio that is a
    finite non-negative number or, over zero, +Infinity. *)
Lemma reflectance_ratio (a b : Q) :
  (0 <= a)%Q -> (0 <= b)%Q -> ~ ((a == 0)%Q /\ (b == 0)%Q) ->
  ((0 < b)%Q /\ JS.Fin a / JS.Fin b = JS.Fin (a / b) /\ (0 <= a / b)%Q)
  \/ ((b == 0)%Q /\ JS.Fin a / JS.Fin b = JS.PosInf).
Proof.
  intros Ha Hb Hne. unfold JS.div.
  destruct (Qeq_bool b 0) eqn:Eb.
  - apply Qeq_bool_iff in Eb. right. split; [exact Eb |].
    destruct (Qeq_bool a 0) eqn:Ea.
    + apply Qeq_bool_iff in Ea. tauto.
    + apply Qeq_bool_false in Ea.
      destruct (JS.Qltb a 0) eqn:El; [| reflexivity].
      apply Qltb_lt in El. lra.
  - apply Qeq_bool_false in Eb. left.
    assert (0 < b)%Q by (destruct (Qlt_le_dec 0 b); [assumption | exfalso; apply Eb; lra]).
    split; [assumption |]. split; [reflexivity |].
    apply Qdiv_nonneg; assumption.
Qed.

(** ** The composition estimator *)

(** C5. On a reading whose two SWIR bands are zero the ratio B11/B12 is
    0/0 and clay, sand and silt are NaN, for every location: clay and
    sand are not in [0,100]. The soil type that goes with them is
    "Loam". *)
Theorem analyzeSoilComposition_NaN_on_dark_swir (location : Location) :
  validReading swirDarkReading
  /\ clay (spread (analyzeSoilComposition swirDarkReading location)) = JS.NaN
  /\ sand (spread (analyzeSoilComposition swirDarkReading location)) = JS.NaN
  /\ silt (spread (analyzeSoilComposition swirDarkReading location)) = JS.NaN
  /\ ~ JS.within 0 100
         (clay (spread (analyzeSoilComposition swirDarkReading location)))
  /\ ~ JS.within 0 100
         (sand (spread (analyzeSoilComposition swirDarkReading location)))
  /\ soilType (analyzeSoilComposition swirDarkReading location) = "Loam".
Proof.
  split; [| repeat split; try reflexivity; intros []].
  unfold validReading, swirDarkReading. simpl. lra.
Qed.

(** Away from that reading the estimator does what is asked of it: when
    SWIR1 and SWIR2 are reflectances not both zero, clay and sand are in
    [0,100] and silt is [Math.max(0, 100 - clay - sand)]. *)
Lemma analyzeSoilComposition_range (b : Bands) (location : Location)
  (b11 b12 : Q) :
  B11 b = JS.Fin b11 -> B12 b = JS.Fin b12 ->
  (0 <= b11)%Q -> (0 <= b12)%Q -> ~ ((b11 == 0)%Q /\ (b12 == 0)%Q) ->
  let c := spread (analyzeSoilComposition b location) in
  JS.within 0 100 (clay c) /\ JS.within 0 100 (sand c)
  /\ silt c = JS.max 0 (100 - clay c - sand c).
Proof.
  intros H11 H12 Ha Hb Hne c. subst c.
  unfold analyzeSoilComposition, set_silt. cbn [spread clay sand silt].
  rewrite H11, H12.
  destruct (reflectance_ratio b11 b12 Ha Hb Hne) as [(_ & -> & _) | (_ & ->)];
    (split; [apply clamp_within; [lra | discriminate] |]);
    (split; [apply clamp_within; [lra | discriminate] | reflexivity]).
Qed.

(** ** The moisture estimator *)

(** C2. On a reading whose two SWIR bands are zero the refinement factor
    is built on 0/0, and the percentage returned is NaN for every NDMI
    and every location: it is not in [5,95] and is not [<=] itself. The
    level that goes with it is "very_high". *)
Theorem analyzeSoilMoisture_NaN_on_dark_swir
  (indices : Indices) (location : Location) :
  validReading swirDarkReading
  /\ percentage (analyzeSoilMoisture swirDarkReading indices location)
     = JS.NaN
  /\ level (analyzeSoilMoisture swirDarkReading indices location)
     = "very_high"
  /\ ~ JS.within 5 95
         (percentage (analyzeSoilMoisture swirDarkReading indices location))
  /\ ~ numLe
         (percentage (analyzeSoilMoisture swirDarkReading indices location))
         (percentage (analyzeSoilMoisture swirDarkReading indices location)).
Proof.
  assert (E : percentage
                (analyzeSoilMoisture swirDarkReading indices location)
              = JS.NaN).
  { rewrite analyzeSoilMoisture_stages.
    unfold moistureIndex, latitudeCorrection.
    cbn [percentage B11 B12 swirDarkReading].
    change (0 / 0)%js with JS.NaN.
    destruct (moistureScale (ndmi indices));
      destruct (JS.abs (lat location) <? 23.5);
      destruct (JS.abs (lat location) >? 60); reflexivity. }
  assert (L : level (analyzeSoilMoisture swirDarkReading indices location)
              = "very_high").
  { rewrite analyzeSoilMoisture_stages.
    unfold moistureIndex, latitudeCorrection.
    cbn [level B11 B12 swirDarkReading].
    change (0 / 0)%js with JS.NaN.
    destruct (moistureScale (ndmi indices));
      destruct (JS.abs (lat location) <? 23.5);
      destruct (JS.abs (lat location) >? 60); reflexivity. }
  split.
  - unfold validReading, swirDarkReading. simpl. lra.
  - rewrite E. repeat split; auto. unfold numLe. discriminate.
Qed.

Lemma moistureScale_Fin (n : Q) :
  exists q, moistureScale (JS.Fin n) = JS.Fin q /\ (5 <= q)%Q.
Proof.
  unfold moistureScale. js_unfold.
  q_cases; eexists; (split; [reflexivity | lra]).
Qed.

Lemma moistureScale_mono (s : segment) (n1 n2 q1 q2 : Q) :
  inSegment s n1 -> inSegment s n2 -> (n1 <= n2)%Q ->
  moistureScale (JS.Fin n1) = JS.Fin q1 ->
  moistureScale (JS.Fin n2) = JS.Fin q2 ->
  (q1 <= q2)%Q.
Proof.
  unfold moistureScale. js_unfold.
  destruct s; simpl; intros H1 H2 Hle;
    q_cases; intros [= <-] [= <-]; lra.
Qed.

Lemma inSegment_total (n : Q) : exists s, inSegment s n.
Proof.
  destruct (Qlt_le_dec 0.4 n); [exists VeryWet; assumption |].
  destruct (Qlt_le_dec 0.1 n); [exists Moderate; split; assumption |].
  destruct (Qlt_le_dec (-0.1) n); [exists Low; split; assumption |].
  exists VeryDry. assumption.
Qed.

(** The refinement factor [0.9 + (swirRatio - 1) * 0.1] of a reading
    whose SWIR bands are not both zero. *)
Lemma swirFactor_cases (b11 b12 : Q) :
  (0 <= b11)%Q -> (0 <= b12)%Q -> ~ ((b11 == 0)%Q /\ (b12 == 0)%Q) ->
  (exists f, 0.9 + (JS.Fin b11 / JS.Fin b12 - 1) * 0.1 = JS.Fin f
             /\ (0.8 <= f)%Q)
  \/ 0.9 + (JS.Fin b11 / JS.Fin b12 - 1) * 0.1 = JS.PosInf.
Proof.
  intros Ha Hb Hne.
  destruct (reflectance_ratio b11 b12 Ha Hb Hne) as [(_ & -> & Hr) | (_ & ->)].
  - left. eexists. split; [reflexivity | lra].
  - right. reflexivity.
Qed.

(** From the scale to the clamped [moistureIndex]: finite, in [5,95],
    and no smaller for a larger scale. *)
Lemma moistureIndex_stage (c : JS.num) (lat : JS.num) (q1 q2 : Q) :
  (exists f, c = JS.Fin f /\ (0.8 <= f)%Q) \/ c = JS.PosInf ->
  (5 <= q1)%Q -> (q1 <= q2)%Q ->
  exists p1 p2,
    JS.max 5 (JS.min 95 (latitudeCorrection lat (JS.Fin q1 * c))) = JS.Fin p1
    /\ JS.max 5 (JS.min 95 (latitudeCorrection lat (JS.Fin q2 * c)))
       = JS.Fin p2
    /\ (5 <= p1)%Q /\ (p1 <= p2)%Q /\ (p2 <= 95)%Q.
Proof.
  intros Hc H1 H2. unfold latitudeCorrection.
  destruct (JS.abs lat <? 23.5); [| destruct (JS.abs lat >? 60)];
    destruct Hc as [(f & -> & Hf) | ->];
    js_unfold; q_cases;
    try (do 2 eexists; split; [reflexivity |]; split; [reflexivity |]; nra);
    exfalso; nra.
Qed.

(** [Math.round(m * 100) / 100] on a finite [m]. *)
Lemma round2_Fin (p : Q) :
  JS.round (JS.Fin p * 100) / 100
  = JS.Fin (inject_Z (Qfloor (p * 100 + (1 # 2))) / 100).
Proof. reflexivity. Qed.

Lemma round2_mono (p1 p2 : Q) :
  (p1 <= p2)%Q ->
  (inject_Z (Qfloor (p1 * 100 + (1 # 2))) / 100
   <= inject_Z (Qfloor (p2 * 100 + (1 # 2))) / 100)%Q.
Proof.
  intros H.
  assert (Hf : (Qfloor (p1 * 100 + (1 # 2)) <= Qfloor (p2 * 100 + (1 # 2)))%Z)
    by (apply Qfloor_resp_le; lra).
  rewrite Zle_Qle in Hf.
  apply Qmult_le_compat_r; [exact Hf | discriminate].
Qed.

Lemma round2_bounds (p : Q) :
  (5 <= p)%Q -> (p <= 95)%Q ->
  (5 <= inject_Z (Qfloor (p * 100 + (1 # 2))) / 100
   /\ inject_Z (Qfloor (p * 100 + (1 # 2))) / 100 <= 95)%Q.
Proof.
  intros Hlo Hhi. split.
  - apply Qle_trans with (inject_Z (Qfloor (5 * 100 + (1 # 2))) / 100)%Q;
      [vm_compute; discriminate | apply round2_mono; exact Hlo].
  - apply Qle_trans with (inject_Z (Qfloor (95 * 100 + (1 # 2))) / 100)%Q;
      [apply round2_mono; exact Hhi | vm_compute; discriminate].
Qed.

Lemma leb_Fin (a b : Q) : (a <= b)%Q -> numLe (JS.Fin a) (JS.Fin b).
Proof.
  intros H. unfold numLe, JS.leb, JS.ltb, JS.eqb.
  destruct (JS.Qltb a b) eqn:E; [reflexivity |].
  apply Qltb_ge in E. simpl. apply Qeq_bool_iff. lra.
Qed.

(** Away from the readings with a 0/0 the estimator does what C2 asks of
    it: when SWIR1 and SWIR2 are reflectances not both zero and the NDMI
    is a number, the percentage is in [5,95], and of two NDMI values in
    one segment the larger gives no smaller a percentage. *)
Lemma analyzeSoilMoisture_range_and_monotone
  (b : Bands) (i : Indices) (location : Location) (b11 b12 : Q)
  (s : segment) (n1 n2 : Q) :
  B11 b = JS.Fin b11 -> B12 b = JS.Fin b12 ->
  (0 <= b11)%Q -> (0 <= b12)%Q -> ~ ((b11 == 0)%Q /\ (b12 == 0)%Q) ->
  inSegment s n1 -> inSegment s n2 -> (n1 <= n2)%Q ->
  let p1 := percentage (analyzeSoilMoisture b (withNdmi i n1) location) in
  let p2 := percentage (analyzeSoilMoisture b (withNdmi i n2) location) in
  JS.within 5 95 p1 /\ JS.within 5 95 p2 /\ numLe p1 p2.
Proof.
  intros H11 H12 Ha Hb Hne S1 S2 Hle p1 p2. subst p1 p2.
  rewrite !analyzeSoilMoisture_stages. unfold moistureIndex.
  cbn [percentage ndmi withNdmi]. rewrite H11, H12.
  destruct (moistureScale_Fin n1) as (q1 & E1 & L1).
  destruct (moistureScale_Fin n2) as (q2 & E2 & L2).
  pose proof (moistureScale_mono s n1 n2 q1 q2 S1 S2 Hle E1 E2) as Hq.
  rewrite E1, E2.
  destruct (moistureIndex_stage _ (lat location) q1 q2
              (swirFactor_cases b11 b12 Ha Hb Hne) L1 Hq)
    as (p1 & p2 & -> & -> & P1 & P12 & P2).
  rewrite !round2_Fin.
  split; [apply round2_bounds; lra |].
  split; [apply round2_bounds; lra |].
  apply leb_Fin, round2_mono, P12.
Qed.

(** ** The recommendation generator *)

(** A property of the array that holds once the bound expression is
    evaluated and is kept by the rest of the body holds of the [let]. *)
Lemma let_keep {A B : Type} (P : B -> Prop) (Q : A -> Prop) (e : A)
  (body : A -> B) :
  Q e -> (forall x, Q x -> P (body x)) -> P (let x := e in body x).
Proof. intros He Hbody. exact (Hbody e He). Qed.

(** Name the expression bound by the [let] at the head of the goal. *)
Ltac enter_let :=
  lazymatch goal with
  | |- ?P (let x := ?e in @?body x) =>
      let y := fresh x in
      set (y := e); change (P (body y)); cbv beta
  end.

(** Cross the [let] at the head of the goal with the property [Q] of
    what it binds. *)
Ltac cross_let Q :=
  lazymatch goal with
  | |- ?P (let x := ?e in @?body x) =>
      refine (let_keep P Q e body _ _); [| intros ? ?; cbv beta]
  end.

Lemma hasCriticalIrrigation_push (l : list Recommendation)
  (r : Recommendation) :
  hasCriticalIrrigation l -> hasCriticalIrrigation (push l r).
Proof.
  intros (x & Hin & Hx). exists x. split; [| exact Hx].
  unfold push. apply in_or_app. left. exact Hin.
Qed.

(** Every later rule only pushes. *)
Ltac keep_critical :=
  repeat match goal with
         | |- hasCriticalIrrigation (if ?c then _ else _) => destruct c
         end;
  try apply hasCriticalIrrigation_push; assumption.

Lemma addSoilHealthRecommendations_keeps (now : Date)
  (l : list Recommendation) (m : Moisture) (c : CompositionResult)
  (i : Indices) (loc : Location) :
  hasCriticalIrrigation l ->
  hasCriticalIrrigation (addSoilHealthRecommendations now l m c i loc).
Proof.
  intros H. cbv beta delta [addSoilHealthRecommendations].
  enter_let.
  cross_let hasCriticalIrrigation; keep_critical.
Qed.

Lemma addCropRecommendations_keeps (now : Date)
  (l : list Recommendation) (m : Moisture) (c : CompositionResult)
  (i : Indices) (loc : Location) :
  hasCriticalIrrigation l ->
  hasCriticalIrrigation (addCropRecommendations now l m c i loc).
Proof.
  intros H. cbv beta delta [addCropRecommendations].
  do 2 enter_let. keep_critical.
Qed.

Lemma addSustainabilityRecommendations_keeps (now : Date)
  (l : list Recommendation) (m : Moisture) (c : CompositionResult)
  (i : Indices) (loc : Location) :
  hasCriticalIrrigation l ->
  hasCriticalIrrigation (addSustainabilityRecommendations now l m c i loc).
Proof.
  intros H. cbv beta delta [addSustainabilityRecommendations].
  enter_let.
  cross_let hasCriticalIrrigation; keep_critical.
Qed.

(** The first rule fires on a percentage below 15 and nothing removes
    what it pushed. *)
Lemma generateRecommendations_critical (now : Date) (m : Moisture)
  (c : CompositionResult) (i : Indices) (loc : Location) :
  (percentage m <? 15) = true ->
  hasCriticalIrrigation (generateRecommendations now m c i loc).
Proof.
  intros Hlow. cbv beta delta [generateRecommendations].
  do 2 enter_let.
  cross_let hasCriticalIrrigation.
  { rewrite Hlow. eexists. split; [left; reflexivity |].
    split; reflexivity. }
  repeat (cross_let hasCriticalIrrigation;
          [first [ keep_critical
                 | apply addSoilHealthRecommendations_keeps; assumption
                 | apply addCropRecommendations_keeps; assumption
                 | apply addSustainabilityRecommendations_keeps; assumption ]
          |]).
  assumption.
Qed.

Lemma moistureScale_dry (n : Q) :
  (n == -0.5)%Q -> moistureScale (JS.Fin n) = JS.Fin (5 + 0).
Proof.
  intros Hn. unfold moistureScale. js_unfold.
  q_cases; try reflexivity; exfalso; lra.
Qed.

(** With the scale at its floor and a combined factor of at most 1 the
    clamp returns 5. *)
Lemma moistureIndex_floor (lat : JS.num) (f : Q) :
  (f * latitudeFactor lat <= 1)%Q ->
  JS.max 5 (JS.min 95 (latitudeCorrection lat (JS.Fin (5 + 0) * JS.Fin f)))
  = JS.Fin 5.
Proof.
  unfold latitudeFactor, latitudeCorrection.
  destruct (JS.abs lat <? 23.5); [| destruct (JS.abs lat >? 60)];
    intros Hf; js_unfold; q_cases; try reflexivity; exfalso; lra.
Qed.

(** C7, as the code has it. A reading with NDMI -0.5 gives percentage 5,
    level "very_low" and a critical "Critical Irrigation" recommendation
    when SWIR2 is positive and the refinement factor times the latitude
    factor is at most 1. *)
Theorem dry_reading_floor_and_critical_irrigation
  (b : Bands) (location : Location) (now : Date)
  (composition : CompositionResult) (b11 b12 : Q) :
  validReading b ->
  JS.same (ndmi (calculateVegetationIndices b)) (JS.Fin (-0.5)) ->
  B11 b = JS.Fin b11 -> B12 b = JS.Fin b12 -> (0 < b12)%Q ->
  (swirFactor b11 b12 * latitudeFactor (lat location) <= 1)%Q ->
  let indices := calculateVegetationIndices b in
  let moisture := analyzeSoilMoisture b indices location in
  JS.same (percentage moisture) (JS.Fin 5)
  /\ level moisture = "very_low"
  /\ hasCriticalIrrigation
       (generateRecommendations now moisture composition indices location).
Proof.
  intros _ Hndmi H11 H12 Hpos Hf indices moisture.
  assert (Hm : moistureIndex b indices location = JS.Fin 5).
  { subst indices. unfold moistureIndex.
    destruct (ndmi (calculateVegetationIndices b)) as [| | | n];
      try contradiction.
    simpl in Hndmi. rewrite (moistureScale_dry n Hndmi), H11, H12.
    assert (Hr : JS.Fin b11 / JS.Fin b12 = JS.Fin (b11 / b12)).
    { unfold JS.div. destruct (Qeq_bool b12 0) eqn:E; [| reflexivity].
      apply Qeq_bool_iff in E. lra. }
    rewrite Hr.
    change (0.9 + (JS.Fin (b11 / b12) - 1) * 0.1)
      with (JS.Fin (swirFactor b11 b12)).
    apply moistureIndex_floor. exact Hf. }
  assert (Hp : percentage moisture
               = JS.Fin (inject_Z (Qfloor (5 * 100 + (1 # 2))) / 100)).
  { subst moisture. rewrite analyzeSoilMoisture_stages. cbn [percentage].
    rewrite Hm. apply round2_Fin. }
  split; [rewrite Hp; reflexivity |].
  split.
  - subst moisture. rewrite analyzeSoilMoisture_stages. cbn [level].
    rewrite Hm. reflexivity.
  - apply generateRecommendations_critical. rewrite Hp. reflexivity.
Qed.

Lemma dry_reading_floor_and_critical_irrigation_witness :
  JS.same
    (percentage
       (analyzeSoilMoisture dryFlatReading
          (calculateVegetationIndices dryFlatReading) fresno))
    (JS.Fin 5)
  /\ level
       (analyzeSoilMoisture dryFlatReading
          (calculateVegetationIndices dryFlatReading) fresno)
     = "very_low"
  /\ hasCriticalIrrigation
       (generateRecommendations march
          (analyzeSoilMoisture dryFlatReading
             (calculateVegetationIndices dryFlatReading) fresno)
          (analyzeSoilComposition dryFlatReading fresno)
          (calculateVegetationIndices dryFlatReading) fresno).
Proof.
  apply (dry_reading_floor_and_critical_irrigation dryFlatReading fresno
           march (analyzeSoilComposition dryFlatReading fresno) 0.75 0.75).
  - unfold validReading, dryFlatReading. simpl. lra.
  - reflexivity.
  - reflexivity.
  - reflexivity.
  - reflexivity.
  - vm_compute. discriminate.
Defined.

(** C7, as the claim has it, fails. A reading with every band in [0,1]
    and NDMI -0.5 whose SWIR1 is three times its SWIR2 gets percentage
    5.5; one whose SWIR1 is ninety-six times its SWIR2 gets percentage 52
    and level "moderate", and no "Critical Irrigation" recommendation is
    generated for it. *)
Lemma dry_reading_above_floor :
  validReading dryMildReading
  /\ JS.same (ndmi (calculateVegetationIndices dryMildReading))
       (JS.Fin (-0.5))
  /\ JS.same
       (percentage
          (analyzeSoilMoisture dryMildReading
             (calculateVegetationIndices dryMildReading) fresno))
       (JS.Fin 5.5)
  /\ validReading drySteepReading
  /\ JS.same (ndmi (calculateVegetationIndices drySteepReading))
       (JS.Fin (-0.5))
  /\ JS.same
       (percentage
          (analyzeSoilMoisture drySteepReading
             (calculateVegetationIndices drySteepReading) fresno))
       (JS.Fin 52)
  /\ level
       (analyzeSoilMoisture drySteepReading
          (calculateVegetationIndices drySteepReading) fresno)
     = "moderate"
  /\ ~ hasCriticalIrrigation
         (generateRecommendations march
            (analyzeSoilMoisture drySteepReading
               (calculateVegetationIndices drySteepReading) fresno)
            (analyzeSoilComposition drySteepReading fresno)
            (calculateVegetationIndices drySteepReading) fresno).
Proof.
  split; [unfold validReading, dryMildReading; simpl; lra |].
  split; [reflexivity |]. split; [reflexivity |].
  split; [unfold validReading, drySteepReading; simpl; lra |].
  split; [reflexivity |]. split; [reflexivity |]. split; [reflexivity |].
  intros (r & Hin & Htype & _).
  vm_compute in Hin.
  repeat (destruct Hin as [<- | Hin]; [discriminate Htype |]).
  exact Hin.
Qed.

(** Two runs of the same [let], one per clock reading: what they bind is
    related by [R], and the bodies carry [R] to [S]. *)
Lemma let_rel {A B : Type} (R : A -> A -> Prop) (S : B -> B -> Prop)
  (e1 e2 : A) (body1 body2 : A -> B) :
  R e1 e2 -> (forall x1 x2, R x1 x2 -> S (body1 x1) (body2 x2)) ->
  S (let x := e1 in body1 x) (let x := e2 in body2 x).
Proof. intros He Hbody. exact (Hbody e1 e2 He). Qed.

Ltac cross_let2 R :=
  lazymatch goal with
  | |- ?S (let x := ?e1 in @?body1 x) (let y := ?e2 in @?body2 y) =>
      refine (let_rel R S e1 e2 body1 body2 _ _);
      [| intros ? ? ?; cbv beta]
  end.

(** A [let] that binds the same value in both runs. *)
Ltac cross_same :=
  lazymatch goal with
  | |- ?S (let x := ?e in @?body1 x) (let y := ?e in @?body2 y) =>
      let z := fresh x in
      set (z := e); change (S (body1 z) (body2 z)); cbv beta
  end.

Lemma sameButSeasonality_push (l1 l2 : list Recommendation)
  (r1 r2 : Recommendation) :
  Forall2 sameButSeasonality l1 l2 -> sameButSeasonality r1 r2 ->
  Forall2 sameButSeasonality (push l1 r1) (push l2 r2).
Proof.
  intros Hl Hr. unfold push. apply Forall2_app; [exact Hl |].
  constructor; [exact Hr | constructor].
Qed.

(** One rule, run under both clock readings: the guard is the same, and
    what is pushed differs in [seasonality] at most. *)
Ltac same_rule :=
  repeat match goal with
         | |- Forall2 _ (if ?c then _ else _) (if ?c then _ else _) =>
             destruct c
         end;
  first [ assumption
        | apply sameButSeasonality_push;
          [assumption | repeat split] ].

Lemma addSoilHealthRecommendations_clock (now1 now2 : Date)
  (l1 l2 : list Recommendation) (m : Moisture) (c : CompositionResult)
  (i : Indices) (loc : Location) :
  Forall2 sameButSeasonality l1 l2 ->
  Forall2 sameButSeasonality
    (addSoilHealthRecommendations now1 l1 m c i loc)
    (addSoilHealthRecommendations now2 l2 m c i loc).
Proof.
  intros H. cbv beta delta [addSoilHealthRecommendations].
  cross_same. cross_let2 (Forall2 sameButSeasonality); same_rule.
Qed.

Lemma addCropRecommendations_clock (now1 now2 : Date)
  (l1 l2 : list Recommendation) (m : Moisture) (c : CompositionResult)
  (i : Indices) (loc : Location) :
  Forall2 sameButSeasonality l1 l2 ->
  Forall2 sameButSeasonality
    (addCropRecommendations now1 l1 m c i loc)
    (addCropRecommendations now2 l2 m c i loc).
Proof.
  intros H. cbv beta delta [addCropRecommendations].
  do 2 cross_same. same_rule.
Qed.

Lemma addSustainabilityRecommendations_clock (now1 now2 : Date)
  (l1 l2 : list Recommendation) (m : Moisture) (c : CompositionResult)
  (i : Indices) (loc : Location) :
  Forall2 sameButSeasonality l1 l2 ->
  Forall2 sameButSeasonality
    (addSustainabilityRecommendations now1 l1 m c i loc)
    (addSustainabilityRecommendations now2 l2 m c i loc).
Proof.
  intros H. cbv beta delta [addSustainabilityRecommendations].
  cross_same. cross_let2 (Forall2 sameButSeasonality); same_rule.
Qed.

Lemma generateRecommendations_clock (now1 now2 : Date) (m : Moisture)
  (c : CompositionResult) (i : Indices) (loc : Location) :
  Forall2 sameButSeasonality
    (generateRecommendations now1 m c i loc)
    (generateRecommendations now2 m c i loc).
Proof.
  cbv beta delta [generateRecommendations].
  cross_same.
  cross_let2 (Forall2 sameButSeasonality); [constructor |].
  repeat (cross_let2 (Forall2 sameButSeasonality);
          [first [ same_rule
                 | apply addSoilHealthRecommendations_clock; assumption
                 | apply addCropRecommendations_clock; assumption
                 | apply addSustainabilityRecommendations_clock;
                   assumption ]
          |]).
  assumption.
Qed.

(** The advice is looked up under the season of the clock's month. *)
Lemma getSeasonalAdvice_season (now1 now2 : Date) (loc : Location) :
  getSeason (getMonth now1) loc = getSeason (getMonth now2) loc ->
  forall practice,
    getSeasonalAdvice now1 practice loc = getSeasonalAdvice now2 practice loc.
Proof.
  intros H practice. unfold getSeasonalAdvice. rewrite H. reflexivity.
Qed.

(** C8, as the code has it. Two invocations on the same moisture,
    composition, indices and location return the same list when the
    clock shows months of the same season at both; whatever the clock
    shows, the two lists have the same length and order and agree on
    every field but [seasonality]. *)
Theorem generateRecommendations_deterministic_within_season
  (now1 now2 : Date) (moisture : Moisture)
  (composition : CompositionResult) (indices : Indices)
  (location : Location) :
  (getSeason (getMonth now1) location = getSeason (getMonth now2) location ->
   generateRecommendations now1 moisture composition indices location
   = generateRecommendations now2 moisture composition indices location)
  /\ Forall2 sameButSeasonality
       (generateRecommendations now1 moisture composition indices location)
       (generateRecommendations now2 moisture composition indices location).
Proof.
  split; [| apply generateRecommendations_clock].
  intros Hseason.
  pose proof (getSeasonalAdvice_season now1 now2 location Hseason) as H.
  cbv beta delta [generateRecommendations addSoilHealthRecommendations
                    addCropRecommendations addSustainabilityRecommendations].
  rewrite !H. reflexivity.
Qed.

Lemma generateRecommendations_deterministic_within_season_witness :
  generateRecommendations march
    (analyzeSoilMoisture dryFlatReading
       (calculateVegetationIndices dryFlatReading) fresno)
    (analyzeSoilComposition dryFlatReading fresno)
    (calculateVegetationIndices dryFlatReading) fresno
  = generateRecommendations april
      (analyzeSoilMoisture dryFlatReading
         (calculateVegetationIndices dryFlatReading) fresno)
      (analyzeSoilComposition dryFlatReading fresno)
      (calculateVegetationIndices dryFlatReading) fresno.
Proof.
  apply (proj1 (generateRecommendations_deterministic_within_season
                  march april _ _ _ fresno)).
  reflexivity.
Defined.

(** C8, as the claim has it, fails: the same moisture, composition,
    indices and location give one list when the clock shows March and
    another when it shows July. *)
Lemma generateRecommendations_depends_on_clock :
  generateRecommendations march
    (analyzeSoilMoisture dryFlatReading
       (calculateVegetationIndices dryFlatReading) fresno)
    (analyzeSoilComposition dryFlatReading fresno)
    (calculateVegetationIndices dryFlatReading) fresno
  <> generateRecommendations july
       (analyzeSoilMoisture dryFlatReading
          (calculateVegetationIndices dryFlatReading) fresno)
       (analyzeSoilComposition dryFlatReading fresno)
       (calculateVegetationIndices dryFlatReading) fresno.
Proof.
  intros H. apply (f_equal (map seasonality)) in H.
  vm_compute in H. discriminate H.
Qed.

(** ** The utility index calculator *)

Lemma leb_Fin_iff (a b : Q) : (JS.Fin a <=? JS.Fin b) = true <-> (a <= b)%Q.
Proof.
  split; [| apply leb_Fin].
  unfold JS.leb, JS.ltb, JS.eqb. intros H.
  apply orb_true_iff in H. destruct H as [H | H].
  - apply Qltb_lt in H. lra.
  - apply Qeq_bool_iff in H. lra.
Qed.

Lemma validBand_numberIn01 (v : AnalysisUtils.value) :
  AnalysisUtils.validBand v = true <-> numberIn01 v.
Proof.
  unfold numberIn01. split.
  - destruct v as [| | b | n | s]; try discriminate.
    unfold AnalysisUtils.validBand. cbn [AnalysisUtils.typeof].
    change (String.eqb "number" "number") with true. cbn [andb].
    destruct n as [| | | q]; try discriminate.
    intros H. apply andb_true_iff in H. destruct H as [H0 H1].
    exists q. split; [reflexivity |].
    split; [apply leb_Fin_iff; exact H0 | apply leb_Fin_iff; exact H1].
  - intros (q & -> & H0 & H1).
    unfold AnalysisUtils.validBand. cbn [AnalysisUtils.typeof].
    change (String.eqb "number" "number") with true. cbn [andb].
    apply andb_true_iff. split; apply leb_Fin_iff; assumption.
Qed.

Lemma forallb_false_In {A : Type} (f : A -> bool) (l : list A) :
  forallb f l = false -> exists x, In x l /\ f x = false.
Proof.
  induction l as [| a l IH]; [discriminate |].
  simpl. destruct (f a) eqn:E.
  - intros H. destruct (IH H) as (x & Hin & Hx). exists x. auto.
  - intros _. exists a. auto.
Qed.

Lemma In_Object_values (bands : gmap string AnalysisUtils.value)
  (v : AnalysisUtils.value) :
  In v (AnalysisUtils.Object_values bands)
  <-> exists k, bands !! k = Some v.
Proof.
  unfold AnalysisUtils.Object_values.
  rewrite <- list_elem_of_In, list_elem_of_fmap. split.
  - intros ([k v'] & -> & Hin). exists k.
    apply elem_of_map_to_list in Hin. exact Hin.
  - intros (k & Hk). exists (k, v). split; [reflexivity |].
    apply elem_of_map_to_list. exact Hk.
Qed.

(** The guard of [calculateIndices] holds exactly when every value of
    the mapping is a number in [0,1]. *)
Lemma validBands_iff (bands : gmap string AnalysisUtils.value) :
  forallb AnalysisUtils.validBand (AnalysisUtils.Object_values bands) = true
  <-> forall k v, bands !! k = Some v -> numberIn01 v.
Proof.
  rewrite forallb_forall. split.
  - intros H k v Hk. apply validBand_numberIn01, H, In_Object_values.
    exists k. exact Hk.
  - intros H v Hin. apply In_Object_values in Hin. destruct Hin as (k & Hk).
    apply validBand_numberIn01. exact (H k v Hk).
Qed.

(** C10. [calculateIndices] throws "Invalid spectral band values"
    exactly when some value of the band mapping is not a number in
    [0,1], and throws nothing else; when every value is a number in
    [0,1] it returns the five indices, each in [-1,1]. *)
Theorem calculateIndices_throws_iff_invalid
  (bands : gmap string AnalysisUtils.value) :
  (AnalysisUtils.calculateIndices bands
   = Throw "Invalid spectral band values"
   <-> exists k v, bands !! k = Some v /\ ~ numberIn01 v)
  /\ ((forall k v, bands !! k = Some v -> numberIn01 v) ->
      exists i,
        AnalysisUtils.calculateIndices bands = Return i
        /\ JS.within (-1) 1 (AnalysisUtils.ndvi i)
        /\ JS.within (-1) 1 (AnalysisUtils.evi i)
        /\ JS.within (-1) 1 (AnalysisUtils.ndmi i)
        /\ JS.within (-1) 1 (AnalysisUtils.bsi i)
        /\ JS.within (-1) 1 (AnalysisUtils.savi i))
  /\ (forall msg,
        AnalysisUtils.calculateIndices bands = Throw msg ->
        msg = "Invalid spectral band values").
Proof.
  unfold AnalysisUtils.calculateIndices.
  destruct (forallb AnalysisUtils.validBand
              (AnalysisUtils.Object_values bands)) eqn:E; cbn [negb].
  - pose proof (proj1 (validBands_iff bands) E) as Hall.
    split; [| split].
    + split; [discriminate |].
      intros (k & v & Hk & Hv). exfalso. exact (Hv (Hall k v Hk)).
    + intros _. eexists. split; [reflexivity |].
      cbn [AnalysisUtils.ndvi AnalysisUtils.evi AnalysisUtils.ndmi
             AnalysisUtils.bsi AnalysisUtils.savi].
      repeat split; apply safeCalculation_within.
    + discriminate.
  - split; [| split].
    + split; [| reflexivity]. intros _.
      destruct (forallb_false_In _ _ E) as (v & Hin & Hv).
      apply In_Object_values in Hin. destruct Hin as (k & Hk).
      exists k, v. split; [exact Hk |].
      intros Hn. apply validBand_numberIn01 in Hn. congruence.
    + intros Hall. apply validBands_iff in Hall. congruence.
    + intros msg [= <-]. reflexivity.
Qed.

Lemma calculateIndices_throws_iff_invalid_witness :
  AnalysisUtils.calculateIndices brightBands
  = Throw "Invalid spectral band values"
  /\ exists i, AnalysisUtils.calculateIndices twoBands = Return i.
Proof.
  split.
  - apply (proj1 (calculateIndices_throws_iff_invalid brightBands)).
    exists "B08", (AnalysisUtils.VNumber 1.25). split; [reflexivity |].
    intros (q & [= <-] & _ & H). vm_compute in H. apply H. reflexivity.
  - destruct (proj1 (proj2 (calculateIndices_throws_iff_invalid twoBands)))
      as (i & Hi & _).
    + intros k v Hk. unfold twoBands in Hk.
      destruct (decide (k = "B08")) as [-> | Hne8].
      * rewrite lookup_insert_eq in Hk. injection Hk as <-.
        exists 0.25%Q. split; [reflexivity |]. split; vm_compute; discriminate.
      * rewrite lookup_insert_ne in Hk by congruence.
        destruct (decide (k = "B04")) as [-> | Hne4].
        -- rewrite lookup_insert_eq in Hk. injection Hk as <-.
           exists 0.12%Q. split; [reflexivity |].
           split; vm_compute; discriminate.
        -- rewrite lookup_insert_ne in Hk by congruence.
           rewrite lookup_empty in Hk. discriminate.
    + exists i. exact Hi.
Defined.

(** ** Further properties of the scene selector *)

Lemma preferred_antisym (a b : Scene) :
  preferred a b -> preferred b a ->
  (cloudCover a == cloudCover b)%Q
  /\ getTime (date a) = getTime (date b).
Proof.
  unfold preferred. intros [H1 | [H1 T1]] [H2 | [H2 T2]]; try lra.
  split; [exact H1 | lia].
Qed.

Lemma selectBestScene_step_keeps (s t : Scene) :
  preferred s t -> selectBestScene_step (Some s) t = Some s.
Proof.
  unfold selectBestScene_step, preferred. intros [H | [H T]].
  - assert (E1 : JS.Qltb (cloudCover t) (cloudCover s) = false)
      by (apply Qltb_ge; lra).
    assert (E2 : Qeq_bool (cloudCover t) (cloudCover s) = false)
      by (apply Qeq_bool_false; lra).
    rewrite E1, E2. reflexivity.
  - assert (E1 : JS.Qltb (cloudCover t) (cloudCover s) = false)
      by (apply Qltb_ge; lra).
    assert (E3 : (getTime (date t) >? getTime (date s))%Z = false)
      by (rewrite Z.gtb_ltb; apply Z.ltb_ge; exact T).
    rewrite E1, E3, andb_false_r. reflexivity.
Qed.

(** X1. A scene that is at the head of the list and is preferred to
    every scene after it (less cloud, or as much cloud and captured no
    earlier) is the one returned: among scenes of equal cloud cover and
    capture time the first wins. *)
Theorem selectBestScene_first_wins (s : Scene) (rest : list Scene) :
  (forall t, In t rest -> preferred s t) ->
  selectBestScene (s :: rest) = Some s.
Proof.
  unfold selectBestScene.
  change (fold_left selectBestScene_step (s :: rest) None)
    with (fold_left selectBestScene_step rest (Some s)).
  induction rest as [| t rest IH]; intros H; [reflexivity |].
  change (fold_left selectBestScene_step (t :: rest) (Some s))
    with (fold_left selectBestScene_step rest
            (selectBestScene_step (Some s) t)).
  rewrite selectBestScene_step_keeps by (apply H; left; reflexivity).
  apply IH. intros u Hu. apply H. right. exact Hu.
Qed.

Lemma selectBestScene_first_wins_witness :
  selectBestScene [sceneLater; sceneToday; sceneLater] = Some sceneLater.
Proof.
  apply selectBestScene_first_wins.
  intros t [<- | [<- | []]];
    (right; split; [reflexivity | vm_compute; discriminate]).
Defined.

(** X2. The choice does not depend on the order of the scenes: two
    arrangements of the same non-empty list give scenes of the same
    cloud cover and the same capture time. *)
Theorem selectBestScene_order_independent (l1 l2 : list Scene) :
  Permutation l1 l2 -> l1 <> [] ->
  exists b1 b2,
    selectBestScene l1 = Some b1 /\ selectBestScene l2 = Some b2
    /\ (cloudCover b1 == cloudCover b2)%Q
    /\ getTime (date b1) = getTime (date b2).
Proof.
  intros Hp Hne.
  destruct l1 as [| s1 r1]; [congruence |].
  destruct l2 as [| s2 r2];
    [apply Permutation_sym, Permutation_nil in Hp; discriminate |].
  destruct (selectBestScene_cons s1 r1) as (b1 & E1 & In1 & P1).
  destruct (selectBestScene_cons s2 r2) as (b2 & E2 & In2 & P2).
  exists b1, b2. split; [exact E1 |]. split; [exact E2 |].
  apply preferred_antisym.
  - apply P1. apply Permutation_in with (s2 :: r2);
      [apply Permutation_sym; exact Hp | exact In2].
  - apply P2. apply Permutation_in with (s1 :: r1); assumption.
Qed.

Lemma selectBestScene_order_independent_witness :
  exists b1 b2,
    selectBestScene [sceneToday; clearScene] = Some b1
    /\ selectBestScene [clearScene; sceneToday] = Some b2
    /\ (cloudCover b1 == cloudCover b2)%Q
    /\ getTime (date b1) = getTime (date b2).
Proof.
  apply selectBestScene_order_independent.
  - apply perm_swap.
  - discriminate.
Defined.

(** ** Further properties of the confidence scorer *)

(** The age test [daysSinceCapture > k] on whole milliseconds. *)
Lemma daysSinceCapture_gt (d k : Z) :
  (JS.Fin (inject_Z d) / (1000 * 60 * 60 * 24) >? JS.Fin (inject_Z k))
  = (k * 86400000 <? d)%Z.
Proof.
  change (JS.Fin (inject_Z d) / (1000 * 60 * 60 * 24) >? JS.Fin (inject_Z k))
    with (JS.Qltb (inject_Z k) (inject_Z d / (1000 * 60 * 60 * 24))).
  assert (Hc : (1000 * 60 * 60 * 24 == inject_Z 86400000)%Q) by reflexivity.
  destruct (k * 86400000 <? d)%Z eqn:E.
  - apply Z.ltb_lt in E. apply Qltb_lt.
    apply Qlt_shift_div_l; [reflexivity |].
    rewrite Hc, <- inject_Z_mult, <- Zlt_Qlt. exact E.
  - apply Z.ltb_ge in E. apply Qltb_ge.
    apply Qle_shift_div_r; [reflexivity |].
    rewrite Hc, <- inject_Z_mult, <- Zle_Qle. exact E.
Qed.

Lemma calculateConfidence_ages (now : Date) (best : Scene)
  (all : list Scene) :
  calculateConfidence now best all =
  let confidence : JS.num := 100 in
  let confidence := confidence - cloudCover best * 2 in
  let confidence :=
    if (Z.of_nat (length all) <? 2)%Z then confidence - 20
    else confidence in
  let confidence :=
    if (days30 <? ageMs now best)%Z then confidence - 10 else confidence in
  let confidence :=
    if (days90 <? ageMs now best)%Z then confidence - 20 else confidence in
  let confidence := JS.max 10 (JS.min 100 confidence) in
  if confidence >? 80 then "high"
  else if confidence >? 60 then "medium"
  else "low".
Proof.
  unfold calculateConfidence, ageMs, days30, days90.
  rewrite <- (daysSinceCapture_gt _ 30), <- (daysSinceCapture_gt _ 90).
  reflexivity.
Qed.



(** X4. A scene with cloud cover of 20 or more is scored "low", however
    many scenes there are and however fresh it is. *)
Theorem calculateConfidence_cloudy_low (now : Date) (best : Scene)
  (all : list Scene) :
  (20 <= cloudCover best)%Q ->
  calculateConfidence now best all = "low".
Proof.
  intros Hc. rewrite calculateConfidence_ages. cbv zeta.
  destruct (Z.of_nat (length all) <? 2)%Z;
    destruct (days30 <? ageMs now best)%Z;
    destruct (days90 <? ageMs now best)%Z;
    js_unfold; q_cases; first [reflexivity | exfalso; lra].
Qed.

Lemma calculateConfidence_cloudy_low_witness :
  calculateConfidence march
    {| scene_id := "S2A_T10SGH"; date := march; cloudCover := 20;
       bands := dryFlatReading |}
    [sceneToday; clearScene; sceneLater] = "low".
Proof.
  apply calculateConfidence_cloudy_low. vm_compute. discriminate.
Defined.

(** ** Further properties of the moisture estimator *)

(** The scale is continuous where its segments meet, so it is
    non-decreasing over all NDMI values. *)
Lemma moistureScale_monotone (n1 n2 q1 q2 : Q) :
  (n1 <= n2)%Q ->
  moistureScale (JS.Fin n1) = JS.Fin q1 ->
  moistureScale (JS.Fin n2) = JS.Fin q2 ->
  (q1 <= q2)%Q.
Proof.
  unfold moistureScale. js_unfold. intros Hle.
  q_cases; intros [= <-] [= <-]; lra.
Qed.

(** X5. When SWIR1 and SWIR2 are reflectances that are not both zero,
    the percentage is non-decreasing in the NDMI over its whole range,
    across the four segments as well as within them. *)
Theorem analyzeSoilMoisture_monotone
  (b : Bands) (i1 i2 : Indices) (location : Location)
  (b11 b12 n1 n2 : Q) :
  B11 b = JS.Fin b11 -> B12 b = JS.Fin b12 ->
  (0 <= b11)%Q -> (0 <= b12)%Q -> ~ ((b11 == 0)%Q /\ (b12 == 0)%Q) ->
  ndmi i1 = JS.Fin n1 -> ndmi i2 = JS.Fin n2 -> (n1 <= n2)%Q ->
  numLe (percentage (analyzeSoilMoisture b i1 location))
        (percentage (analyzeSoilMoisture b i2 location)).
Proof.
  intros H11 H12 Ha Hb Hne N1 N2 Hle.
  rewrite !analyzeSoilMoisture_stages. unfold moistureIndex.
  cbn [percentage]. rewrite H11, H12, N1, N2.
  destruct (moistureScale_Fin n1) as (q1 & E1 & L1).
  destruct (moistureScale_Fin n2) as (q2 & E2 & L2).
  pose proof (moistureScale_monotone n1 n2 q1 q2 Hle E1 E2) as Hq.
  rewrite E1, E2.
  destruct (moistureIndex_stage _ (lat location) q1 q2
              (swirFactor_cases b11 b12 Ha Hb Hne) L1 Hq)
    as (p1 & p2 & -> & -> & P1 & P12 & P2).
  rewrite !round2_Fin. apply leb_Fin, round2_mono, P12.
Qed.

Lemma analyzeSoilMoisture_monotone_witness :
  numLe
    (percentage
       (analyzeSoilMoisture dryFlatReading
          (withNdmi (calculateVegetationIndices dryFlatReading) (-0.2))
          fresno))
    (percentage
       (analyzeSoilMoisture dryFlatReading
          (withNdmi (calculateVegetationIndices dryFlatReading) 0.5)
          fresno)).
Proof.
  apply (analyzeSoilMoisture_monotone dryFlatReading _ _ fresno
           0.75 0.75 (-0.2) 0.5);
    try reflexivity; try (vm_compute; discriminate).
  intros [H _]. vm_compute in H. discriminate.
Defined.

(** The NDMI of a reading with a positive SWIR1 is a number. *)
Lemma ndmi_Fin (b : Bands) (b08 b11 : Q) :
  B08 b = JS.Fin b08 -> B11 b = JS.Fin b11 ->
  (0 <= b08)%Q -> (0 < b11)%Q ->
  exists n, ndmi (calculateVegetationIndices b) = JS.Fin n.
Proof.
  intros H08 H11 Ha Hb.
  rewrite calculateVegetationIndices_formulas. cbn [ndmi].
  unfold ndmiFormula. rewrite H08, H11.
  assert (Hf : exists f, (JS.Fin b08 - JS.Fin b11) / (JS.Fin b08 + JS.Fin b11)
                         = JS.Fin f).
  { js_unfold. q_cases; first [exfalso; lra | eexists; reflexivity]. }
  destruct Hf as (f & ->).
  pose proof (clamp_within (-1) 1 (JS.Fin f)) as Hw.
  destruct (JS.max (-1) (JS.min 1 (JS.Fin f))) as [| | | n];
    try (exfalso; apply Hw; [lra | discriminate]).
  exists n. reflexivity.
Qed.

(** X6. For every reading with all bands in [0,1] and a positive SWIR1,
    and every location, the percentage the pipeline computes from the
    reading's own NDMI is in [5,95]. *)
Theorem analyzeSoilMoisture_pipeline_range (b : Bands) (location : Location)
  (b11 : Q) :
  validReading b -> B11 b = JS.Fin b11 -> (0 < b11)%Q ->
  JS.within 5 95
    (percentage
       (analyzeSoilMoisture b (calculateVegetationIndices b) location)).
Proof.
  intros (_ & _ & _ & V08 & _ & V11 & V12) H11 Hpos.
  destruct (B08 b) as [| | | b08] eqn:E08; try contradiction.
  destruct (B12 b) as [| | | b12] eqn:E12; try contradiction.
  simpl in V08, V12.
  destruct (ndmi_Fin b b08 b11 E08 H11) as (n & Hn); [lra | exact Hpos |].
  assert (Hne : ~ ((b11 == 0)%Q /\ (b12 == 0)%Q)) by (intros [H _]; lra).
  rewrite analyzeSoilMoisture_stages. unfold moistureIndex.
  cbn [percentage]. rewrite H11, E12, Hn.
  destruct (moistureScale_Fin n) as (q & E & L). rewrite E.
  destruct (moistureIndex_stage _ (lat location) q q
              (swirFactor_cases b11 b12 ltac:(lra) ltac:(lra) Hne) L
              ltac:(lra))
    as (p1 & p2 & -> & _ & P1 & P12 & P2).
  rewrite round2_Fin. apply round2_bounds; lra.
Qed.

Lemma analyzeSoilMoisture_pipeline_range_witness :
  JS.within 5 95
    (percentage
       (analyzeSoilMoisture drySteepReading
          (calculateVegetationIndices drySteepReading) fresno)).
Proof.
  apply (analyzeSoilMoisture_pipeline_range drySteepReading fresno 0.75).
  - unfold validReading, drySteepReading. simpl. lra.
  - reflexivity.
  - reflexivity.
Defined.




(** ** Further properties of the composition estimator *)










(** X11. For every reading with all bands in [0,1] the organic matter
    is in [0,8]: the cap of 15 the code clamps to is never reached. *)
Theorem analyzeSoilComposition_organicMatter_range (b : Bands)
  (location : Location) :
  validReading b ->
  JS.within 0 8 (organicMatter (spread (analyzeSoilComposition b location))).
Proof.
  intros (_ & _ & V04 & _ & _ & V11 & _).
  destruct (B04 b) as [| | | r] eqn:E04; try contradiction.
  destruct (B11 b) as [| | | s] eqn:E11; try contradiction.
  simpl in V04, V11.
  unfold analyzeSoilComposition, set_silt. cbn [spread organicMatter].
  rewrite E04, E11.
  change ((JS.Fin r + JS.Fin s) / 2) with (JS.Fin ((r + s) / 2)).
  assert (Hh : (0 <= (r + s) / 2 /\ (r + s) / 2 <= 1)%Q).
  { split.
    - apply Qle_shift_div_l; [reflexivity | lra].
    - apply Qle_shift_div_r; [reflexivity | lra]. }
  generalize dependent ((r + s) / 2)%Q. intros h Hh.
  js_unfold. q_cases; simpl; lra.
Qed.

Lemma analyzeSoilComposition_organicMatter_range_witness :
  JS.within 0 8
    (organicMatter (spread (analyzeSoilComposition swirDarkReading fresno))).
Proof.
  apply analyzeSoilComposition_organicMatter_range.
  unfold validReading, swirDarkReading. simpl. lra.
Defined.

(** X12. When the red and SWIR1 bands are reflectances not both zero,
    the pH estimate is in [4,9] and is a whole number of tenths, for
    every latitude. *)
Theorem estimatePH_range (b : Bands) (location : Location) (r s : Q) :
  B04 b = JS.Fin r -> B11 b = JS.Fin s ->
  (0 <= r)%Q -> (0 <= s)%Q -> ~ ((r == 0)%Q /\ (s == 0)%Q) ->
  JS.within 4 9 (estimatePH b location)
  /\ exists k : Z,
       JS.same (estimatePH b location) (JS.Fin (inject_Z k / 10)).
Proof.
  intros H04 H11 Hr Hs Hne. unfold estimatePH. rewrite H04, H11.
  assert (Hi : exists f, (JS.Fin s - JS.Fin r) / (JS.Fin s + JS.Fin r)
                         = JS.Fin f).
  { js_unfold. q_cases; first [eexists; reflexivity | exfalso; apply Hne; lra]. }
  destruct Hi as (f & ->).
  assert (Hp : exists p,
             (if JS.abs (lat location) <? 23.5
              then (if lat location >? 50
                    then JS.Fin 7.0 + JS.Fin f * 2 - 0.5
                    else JS.Fin 7.0 + JS.Fin f * 2) + 0.3
              else (if lat location >? 50
                    then JS.Fin 7.0 + JS.Fin f * 2 - 0.5
                    else JS.Fin 7.0 + JS.Fin f * 2))
             = JS.Fin p).
  { destruct (JS.abs (lat location) <? 23.5);
      destruct (lat location >? 50); eexists; reflexivity. }
  destruct Hp as (p & ->).
  change (JS.round (JS.Fin p * 10) / 10)
    with (JS.Fin (inject_Z (Qfloor (p * 10 + (1 # 2))) / 10)).
  generalize (Qfloor (p * 10 + (1 # 2))). intros z.
  pose proof (clamp_within 4.0 9.0 (JS.Fin (inject_Z z / 10))
                ltac:(lra) ltac:(discriminate)) as Hw.
  split.
  - destruct (JS.max 4.0 (JS.min 9.0 (JS.Fin (inject_Z z / 10))));
      simpl in *; try contradiction; lra.
  - clear Hw. js_unfold.
    q_cases;
      first [ exfalso; lra
            | exists z; simpl; reflexivity
            | exists 40%Z; simpl; reflexivity
            | exists 90%Z; simpl; reflexivity ].
Qed.

Lemma estimatePH_range_witness :
  JS.within 4 9 (estimatePH drySteepReading fresno)
  /\ exists k : Z,
       JS.same (estimatePH drySteepReading fresno)
         (JS.Fin (inject_Z k / 10)).
Proof.
  apply (estimatePH_range drySteepReading fresno 0.125 0.75);
    try reflexivity; try (vm_compute; discriminate).
  intros [H _]. vm_compute in H. discriminate.
Defined.



(** ** Further properties of the recommendation generator *)

(** X14. Whatever the date, the advice for a practice is the fallback
    text exactly when the practice is not one of the four the table
    has; so the eight other practices the rules ask for always get the
    fallback. *)
Theorem getSeasonalAdvice_fallback_iff (now : Date) (practice : string)
  (location : Location) :
  getSeasonalAdvice now practice location = fallbackAdvice
  <-> ~ In practice tablePractices.
Proof.
  unfold getSeasonalAdvice, seasonalAdvice, tablePractices, fallbackAdvice.
  cbn [property].
  destruct (String.eqb_spec "irrigation" practice) as [<- | N1];
    [| destruct (String.eqb_spec "planting" practice) as [<- | N2];
       [| destruct (String.eqb_spec "soil_amendment" practice) as [<- | N3];
          [| destruct (String.eqb_spec "liming" practice) as [<- | N4]]]].
  1-4: unfold getSeason;
       destruct ((2 <=? getMonth now)%Z && (getMonth now <=? 4)%Z);
       [| destruct ((5 <=? getMonth now)%Z && (getMonth now <=? 7)%Z);
          [| destruct ((8 <=? getMonth now)%Z && (getMonth now <=? 10)%Z)]];
       (split; [discriminate | intros H; exfalso; apply H; simpl; tauto]).
  split; [| reflexivity].
  intros _ [E | [E | [E | [E | []]]]]; congruence.
Qed.

Lemma map_rec_type_push (l : list Recommendation) (r : Recommendation) :
  map rec_type (push l r) = (map rec_type l ++ [rec_type r])%list.
Proof. unfold push. rewrite map_app. reflexivity. Qed.

(** One group of rules: what it pushes has the types of the group, after
    those already in the array. *)
Ltac rule_types :=
  repeat match goal with x := _ |- _ => subst x end;
  unfold typesAre in *;
  try match goal with
      | H : map rec_type ?x = _ |- map rec_type _ = (_ ++ _)%list =>
          rewrite <- H; clear H
      end;
  unfold waterTypes, vegetationTypes, clayTypes, sandTypes, organicTypes,
    phTypes, stressTypes, soilHealthTypes, cropTypes, sustainabilityTypes;
  repeat match goal with
         | |- context [if ?c then _ else _] => destruct c
         end;
  rewrite ?map_rec_type_push, ?app_nil_r; reflexivity.

Lemma addSoilHealthRecommendations_types (now : Date)
  (l : list Recommendation) (m : Moisture) (c : CompositionResult)
  (i : Indices) (loc : Location) :
  typesAre (map rec_type l ++ soilHealthTypes (spread c) i)
    (addSoilHealthRecommendations now l m c i loc).
Proof.
  cbv beta delta [addSoilHealthRecommendations]. enter_let.
  cross_let
    (typesAre
       (map rec_type l
        ++ (if (organicMatter (spread c) <? 3) && (ndvi i <? 0.5)
            then ["Soil Biology Enhancement"] else []))).
  - rule_types.
  - unfold soilHealthTypes. rewrite app_assoc. rule_types.
Qed.

Lemma addCropRecommendations_types (now : Date)
  (l : list Recommendation) (m : Moisture) (c : CompositionResult)
  (i : Indices) (loc : Location) :
  typesAre (map rec_type l ++ cropTypes m (spread c))
    (addCropRecommendations now l m c i loc).
Proof.
  cbv beta delta [addCropRecommendations]. do 2 enter_let.
  assert (H : typesAre (map rec_type l) l) by reflexivity.
  repeat match goal with x := _ |- _ => subst x end.
  unfold typesAre, cropTypes.
  destruct ((clay (spread c) >? 50) && (percentage m >? 60));
    [| destruct ((sand (spread c) >? 60) && (percentage m <? 40));
       [| destruct ((ph (spread c) >=? 6.0) && (ph (spread c) <=? 7.5))]];
    cbn [length orb];
    repeat match goal with
           | |- context [(0 <? Z.of_nat ?n)%Z] =>
               let v := eval vm_compute in (0 <? Z.of_nat n)%Z in
               change (0 <? Z.of_nat n)%Z with v
           end;
    cbv beta iota;
    rewrite ?map_rec_type_push, ?app_nil_r; reflexivity.
Qed.

Lemma addSustainabilityRecommendations_types (now : Date)
  (l : list Recommendation) (m : Moisture) (c : CompositionResult)
  (i : Indices) (loc : Location) :
  typesAre (map rec_type l ++ sustainabilityTypes (spread c) i)
    (addSustainabilityRecommendations now l m c i loc).
Proof.
  cbv beta delta [addSustainabilityRecommendations]. enter_let.
  cross_let
    (typesAre
       (map rec_type l
        ++ (if organicMatter (spread c) <? 4
            then ["Carbon Sequestration"] else []))).
  - rule_types.
  - unfold sustainabilityTypes. rewrite app_assoc. rule_types.
Qed.

(** The array after each group of rules holds the types of the groups
    run so far. *)
Lemma generateRecommendations_fired (now : Date) (m : Moisture)
  (c : CompositionResult) (i : Indices) (loc : Location) :
  map rec_type (generateRecommendations now m c i loc)
  = firedTypes m (spread c) i.
Proof.
  change (typesAre (firedTypes m (spread c) i)
            (generateRecommendations now m c i loc)).
  cbv beta delta [generateRecommendations]. enter_let.
  cross_let (typesAre []); [reflexivity |].
  cross_let (typesAre ([] ++ waterTypes m)); [rule_types |].
  cross_let (typesAre (([] ++ waterTypes m) ++ vegetationTypes i));
    [rule_types |].
  cross_let
    (typesAre ((([] ++ waterTypes m) ++ vegetationTypes i)
               ++ clayTypes (spread c)));
    [rule_types |].
  cross_let
    (typesAre (((([] ++ waterTypes m) ++ vegetationTypes i)
                ++ clayTypes (spread c)) ++ sandTypes (spread c)));
    [rule_types |].
  cross_let
    (typesAre ((((([] ++ waterTypes m) ++ vegetationTypes i)
                 ++ clayTypes (spread c)) ++ sandTypes (spread c))
               ++ organicTypes (spread c)));
    [rule_types |].
  cross_let
    (typesAre (((((([] ++ waterTypes m) ++ vegetationTypes i)
                  ++ clayTypes (spread c)) ++ sandTypes (spread c))
                ++ organicTypes (spread c)) ++ phTypes (spread c)));
    [rule_types |].
  cross_let
    (typesAre ((((((([] ++ waterTypes m) ++ vegetationTypes i)
                   ++ clayTypes (spread c)) ++ sandTypes (spread c))
                 ++ organicTypes (spread c)) ++ phTypes (spread c))
               ++ stressTypes i));
    [rule_types |].
  cross_let
    (typesAre (((((((([] ++ waterTypes m) ++ vegetationTypes i)
                    ++ clayTypes (spread c)) ++ sandTypes (spread c))
                  ++ organicTypes (spread c)) ++ phTypes (spread c))
                ++ stressTypes i) ++ soilHealthTypes (spread c) i)).
  { match goal with
    | H : typesAre _ ?x |- _ =>
        unfold typesAre in H |- *;
        rewrite (addSoilHealthRecommendations_types now x m c i loc), H
    end. reflexivity. }
  cross_let
    (typesAre ((((((((([] ++ waterTypes m) ++ vegetationTypes i)
                     ++ clayTypes (spread c)) ++ sandTypes (spread c))
                   ++ organicTypes (spread c)) ++ phTypes (spread c))
                 ++ stressTypes i) ++ soilHealthTypes (spread c) i)
               ++ cropTypes m (spread c))).
  { match goal with
    | H : typesAre _ ?x |- _ =>
        unfold typesAre in H |- *;
        rewrite (addCropRecommendations_types now x m c i loc), H
    end. reflexivity. }
  cross_let
    (typesAre (((((((((([] ++ waterTypes m) ++ vegetationTypes i)
                      ++ clayTypes (spread c)) ++ sandTypes (spread c))
                    ++ organicTypes (spread c)) ++ phTypes (spread c))
                  ++ stressTypes i) ++ soilHealthTypes (spread c) i)
                ++ cropTypes m (spread c))
               ++ sustainabilityTypes (spread c) i)).
  { match goal with
    | H : typesAre _ ?x |- _ =>
        unfold typesAre in H |- *;
        rewrite (addSustainabilityRecommendations_types now x m c i loc), H
    end. reflexivity. }
  match goal with
  | H : typesAre _ ?x |- _ => unfold typesAre in H |- *; rewrite H
  end.
  unfold firedTypes. rewrite <- !app_assoc. reflexivity.
Qed.

(** X15. The types of the recommendations returned are those of the
    rules whose guards hold, in the order the rules are written in the
    source, each at most once, and the same for every date. *)
Theorem generateRecommendations_types (now : Date) (m : Moisture)
  (c : CompositionResult) (i : Indices) (loc : Location) :
  map rec_type (generateRecommendations now m c i loc)
  = firedTypes m (spread c) i.
Proof. apply generateRecommendations_fired. Qed.

(** A group contributes none of the given names. *)
Ltac group_avoids :=
  unfold vegetationTypes, clayTypes, sandTypes, organicTypes, phTypes,
    stressTypes, soilHealthTypes, cropTypes, sustainabilityTypes;
  repeat match goal with
         | |- context [if ?c then _ else _] => destruct c
         end;
  cbn [app]; repeat constructor;
  intros HIn; simpl in HIn; intuition discriminate.

(** X16. At most one water-management recommendation is returned and it
    is the first of the list: "Critical Irrigation" when the percentage
    is under 15, else "Irrigation Management" when it is under 30, else
    "Drainage Management" when it is over 85. "Critical Irrigation" is in
    the list exactly when the percentage is under 15. *)
Theorem generateRecommendations_water_first (now : Date) (m : Moisture)
  (c : CompositionResult) (i : Indices) (loc : Location) :
  (exists rest,
     map rec_type (generateRecommendations now m c i loc)
     = (waterTypes m ++ rest)%list
     /\ Forall (fun t => ~ In t waterNames) rest)
  /\ (In "Critical Irrigation"
        (map rec_type (generateRecommendations now m c i loc))
      <-> (percentage m <? 15) = true).
Proof.
  rewrite generateRecommendations_fired. unfold firedTypes.
  assert (Hrest :
            Forall (fun t => ~ In t waterNames)
              (vegetationTypes i ++ clayTypes (spread c)
               ++ sandTypes (spread c) ++ organicTypes (spread c)
               ++ phTypes (spread c) ++ stressTypes i
               ++ soilHealthTypes (spread c) i ++ cropTypes m (spread c)
               ++ sustainabilityTypes (spread c) i)).
  { repeat (apply Forall_app; split); group_avoids. }
  split.
  - eexists. split; [reflexivity | exact Hrest].
  - rewrite in_app_iff. split.
    + intros [H | H].
      * unfold waterTypes in H.
        destruct (percentage m <? 15); [reflexivity |].
        destruct (percentage m <? 30);
          [| destruct (percentage m >? 85)];
          simpl in H; intuition discriminate.
      * rewrite List.Forall_forall in Hrest. exfalso.
        apply (Hrest _ H). simpl. tauto.
    + intros H. left. unfold waterTypes. rewrite H. left. reflexivity.
Qed.

Lemma vegetation_stress_exclusive (i : Indices) :
  (length (vegetationTypes i) + length (stressTypes i) <= 1)%nat.
Proof.
  unfold vegetationTypes, stressTypes.
  destruct (ndvi i) as [| | | q]; destruct (ndmi i <? 0.3);
    js_unfold; q_cases; simpl; first [lia | exfalso; lra].
Qed.

(** X17. At most eleven recommendations are returned: every rule pushes
    at most once, and the vegetation rule and the water-stress rule never
    fire together. *)
Theorem generateRecommendations_at_most_11 (now : Date) (m : Moisture)
  (c : CompositionResult) (i : Indices) (loc : Location) :
  (length (generateRecommendations now m c i loc) <= 11)%nat.
Proof.
  rewrite <- (length_map rec_type), generateRecommendations_fired.
  unfold firedTypes. rewrite !length_app.
  pose proof (vegetation_stress_exclusive i) as Hvs.
  assert (H1 : (length (waterTypes m) <= 1)%nat)
    by (unfold waterTypes;
        repeat match goal with
               | |- context [if ?g then _ else _] => destruct g
               end; simpl; lia).
  assert (H2 : (length (clayTypes (spread c)) <= 1)%nat)
    by (unfold clayTypes; destruct (clay (spread c) >? 60); simpl; lia).
  assert (H3 : (length (sandTypes (spread c)) <= 1)%nat)
    by (unfold sandTypes; destruct (sand (spread c) >? 70); simpl; lia).
  assert (H4 : (length (organicTypes (spread c)) <= 1)%nat)
    by (unfold organicTypes; destruct (organicMatter (spread c) <? 2);
        simpl; lia).
  assert (H5 : (length (phTypes (spread c)) <= 1)%nat)
    by (unfold phTypes;
        repeat match goal with
               | |- context [if ?g then _ else _] => destruct g
               end; simpl; lia).
  assert (H6 : (length (soilHealthTypes (spread c) i) <= 2)%nat)
    by (unfold soilHealthTypes;
        repeat match goal with
               | |- context [if ?g then _ else _] => destruct g
               end; simpl; lia).
  assert (H7 : (length (cropTypes m (spread c)) <= 1)%nat)
    by (unfold cropTypes;
        repeat match goal with
               | |- context [if ?g then _ else _] => destruct g
               end; simpl; lia).
  assert (H8 : (length (sustainabilityTypes (spread c) i) <= 2)%nat)
    by (unfold sustainabilityTypes;
        repeat match goal with
               | |- context [if ?g then _ else _] => destruct g
               end; simpl; lia).
  lia.
Qed.




(** ** Further properties of [AnalysisUtils] *)

(** X19. [safeCalculation] returns a number in [-1,1] whatever the
    callback returns; it returns 0 for NaN and for both infinities,
    leaves alone a value already in [-1,1], and applying it to its own
    result changes nothing. *)
Theorem safeCalculation_guards (calculation : unit -> JS.num) :
  JS.within (-1) 1 (AnalysisUtils.safeCalculation calculation)
  /\ (degenerate (calculation tt) ->
      AnalysisUtils.safeCalculation calculation = JS.Fin 0)
  /\ (JS.within (-1) 1 (calculation tt) ->
      JS.same (AnalysisUtils.safeCalculation calculation) (calculation tt))
  /\ AnalysisUtils.safeCalculation
       (fun _ => AnalysisUtils.safeCalculation calculation)
     = AnalysisUtils.safeCalculation calculation.
Proof.
  split; [apply safeCalculation_within |].
  split; [apply safeCalculation_degenerate |].
  unfold AnalysisUtils.safeCalculation.
  destruct (calculation tt) as [| | | q]; cbn [JS.isNaN JS.isFinite orb negb].
  - split; [intros [] | reflexivity].
  - split; [intros [] | reflexivity].
  - split; [intros [] | reflexivity].
  - split.
    + simpl. intros Hq. js_unfold. q_cases; simpl; lra.
    + js_unfold. q_cases; cbn [JS.isNaN JS.isFinite orb negb];
        q_cases; first [reflexivity | exfalso; lra].
Qed.

Lemma safeCalculation_guards_witness :
  AnalysisUtils.safeCalculation (fun _ => JS.Fin 1 / JS.Fin 0) = JS.Fin 0
  /\ JS.same (AnalysisUtils.safeCalculation (fun _ => JS.Fin 0.25))
       (JS.Fin 0.25).
Proof.
  split.
  - apply (proj1 (proj2 (safeCalculation_guards
                           (fun _ => JS.Fin 1 / JS.Fin 0)))).
    reflexivity.
  - apply (proj1 (proj2 (proj2 (safeCalculation_guards
                                  (fun _ => JS.Fin 0.25))))).
    simpl. lra.
Defined.

Lemma bandsObject_lookup (b : Bands) (k : string) (v : AnalysisUtils.value) :
  bandsObject b !! k = Some v ->
  v = AnalysisUtils.VNumber (B02 b) \/ v = AnalysisUtils.VNumber (B03 b)
  \/ v = AnalysisUtils.VNumber (B04 b) \/ v = AnalysisUtils.VNumber (B08 b)
  \/ v = AnalysisUtils.VNumber (B8A b) \/ v = AnalysisUtils.VNumber (B11 b)
  \/ v = AnalysisUtils.VNumber (B12 b).
Proof.
  unfold bandsObject. intros H.
  repeat (apply lookup_insert_Some in H;
          destruct H as [[_ <-] | [_ H]]; [tauto |]).
  rewrite lookup_empty in H. discriminate.
Qed.

Lemma bandsObject_valid (b : Bands) :
  validReading b ->
  forallb AnalysisUtils.validBand
    (AnalysisUtils.Object_values (bandsObject b)) = true.
Proof.
  intros (V02 & V03 & V04 & V08 & V8A & V11 & V12).
  apply validBands_iff. intros k v Hk.
  assert (Hn : forall n, JS.within 0 1 n ->
                         numberIn01 (AnalysisUtils.VNumber n)).
  { intros [| | | q]; simpl; try contradiction.
    intros Hq. exists q. split; [reflexivity | exact Hq]. }
  destruct (bandsObject_lookup b k v Hk)
    as [-> | [-> | [-> | [-> | [-> | [-> | ->]]]]]]; apply Hn; assumption.
Qed.

Lemma bandsObject_operands (b : Bands) :
  AnalysisUtils.operand (bandsObject b) "B02" = B02 b
  /\ AnalysisUtils.operand (bandsObject b) "B04" = B04 b
  /\ AnalysisUtils.operand (bandsObject b) "B08" = B08 b
  /\ AnalysisUtils.operand (bandsObject b) "B11" = B11 b.
Proof.
  unfold AnalysisUtils.operand, bandsObject.
  repeat split;
    repeat first [ rewrite lookup_insert_eq
                 | rewrite lookup_insert_ne by discriminate ];
    reflexivity.
Qed.

Lemma guarded_finite (f : JS.num) :
  JS.isFinite f = true -> guarded f = JS.max (-1) (JS.min 1 f).
Proof.
  unfold guarded, AnalysisUtils.safeCalculation.
  destruct f; try discriminate. reflexivity.
Qed.

Lemma guarded_degenerate (f : JS.num) :
  JS.isFinite f = false -> guarded f = JS.Fin 0.
Proof.
  unfold guarded, AnalysisUtils.safeCalculation.
  destruct f; try discriminate; reflexivity.
Qed.

(** X20. On a reading with all bands in [0,1] the utility calculator
    does not throw, and each of its NDVI, EVI, NDMI and BSI is the index
    the service computes when the formula is a finite number, and 0 when
    it is not. *)
Theorem calculateIndices_agrees_with_service (b : Bands) :
  validReading b ->
  exists i,
    AnalysisUtils.calculateIndices (bandsObject b) = Return i
    /\ AnalysisUtils.ndvi i
       = (if JS.isFinite (ndviFormula b)
          then ndvi (calculateVegetationIndices b) else JS.Fin 0)
    /\ AnalysisUtils.evi i
       = (if JS.isFinite (eviFormula b)
          then evi (calculateVegetationIndices b) else JS.Fin 0)
    /\ AnalysisUtils.ndmi i
       = (if JS.isFinite (ndmiFormula b)
          then ndmi (calculateVegetationIndices b) else JS.Fin 0)
    /\ AnalysisUtils.bsi i
       = (if JS.isFinite (bsiFormula b)
          then bsi (calculateVegetationIndices b) else JS.Fin 0).
Proof.
  intros Hv. unfold AnalysisUtils.calculateIndices.
  rewrite (bandsObject_valid b Hv). cbn [negb].
  destruct (bandsObject_operands b) as (-> & -> & -> & ->).
  eexists. split; [reflexivity |].
  cbn [AnalysisUtils.ndvi AnalysisUtils.evi AnalysisUtils.ndmi
         AnalysisUtils.bsi].
  rewrite calculateVegetationIndices_formulas. cbn [ndvi evi ndmi bsi].
  change (AnalysisUtils.safeCalculation
            (fun _ => (B08 b - B04 b) / (B08 b + B04 b)))
    with (guarded (ndviFormula b)).
  change (AnalysisUtils.safeCalculation
            (fun _ => 2.5 * ((B08 b - B04 b)
                             / (B08 b + 6 * B04 b - 7.5 * B02 b + 1))))
    with (guarded (eviFormula b)).
  change (AnalysisUtils.safeCalculation
            (fun _ => (B08 b - B11 b) / (B08 b + B11 b)))
    with (guarded (ndmiFormula b)).
  change (AnalysisUtils.safeCalculation
            (fun _ => (B11 b + B04 b - (B08 b + B02 b))
                      / (B11 b + B04 b + (B08 b + B02 b))))
    with (guarded (bsiFormula b)).
  repeat split;
    match goal with
    | |- guarded ?f = _ =>
        destruct (JS.isFinite f) eqn:E;
        [apply guarded_finite | apply guarded_degenerate]; exact E
    end.
Qed.

Lemma calculateIndices_agrees_with_service_witness :
  exists i,
    AnalysisUtils.calculateIndices (bandsObject darkReading) = Return i
    /\ AnalysisUtils.ndvi i = JS.Fin 0
    /\ AnalysisUtils.evi i = evi (calculateVegetationIndices darkReading).
Proof.
  destruct (calculateIndices_agrees_with_service darkReading)
    as (i & Hi & Hn & He & _).
  - unfold validReading, darkReading. simpl. lra.
  - exists i. split; [exact Hi |]. split; [exact Hn | exact He].
Defined.

(** X21. [validateCoordinates] answers valid exactly when both arguments
    are numbers, the latitude is NaN or in [-90,90] and the longitude is
    NaN or in [-180,180]: NaN passes both range tests, an infinity
    passes neither. *)
Theorem validateCoordinates_valid_iff (lat lon : AnalysisUtils.value) :
  AnalysisUtils.valid (AnalysisUtils.validateCoordinates lat lon) = true
  <-> exists a b,
        lat = AnalysisUtils.VNumber a /\ lon = AnalysisUtils.VNumber b
        /\ (a = JS.NaN \/ JS.within (-90) 90 a)
        /\ (b = JS.NaN \/ JS.within (-180) 180 b).
Proof.
  unfold AnalysisUtils.validateCoordinates. split.
  - destruct lat as [| | ? | a | ?]; try discriminate;
      destruct lon as [| | ? | b | ?]; try discriminate.
    cbn [AnalysisUtils.typeof AnalysisUtils.number].
    change (String.eqb "number" "number") with true. cbn [negb orb].
    intros H. exists a, b. split; [reflexivity |]. split; [reflexivity |].
    destruct a as [| | | p]; try discriminate H;
      destruct b as [| | | q]; try discriminate H;
      revert H; js_unfold; q_cases; cbn; intros H; try discriminate H;
      split; first [left; reflexivity | right; simpl; lra].
  - intros (a & b & -> & -> & Ha & Hb).
    cbn [AnalysisUtils.typeof AnalysisUtils.number].
    change (String.eqb "number" "number") with true. cbn [negb orb].
    destruct Ha as [-> | Ha]; destruct Hb as [-> | Hb];
      try (destruct a as [| | | p]; simpl in Ha; try contradiction);
      try (destruct b as [| | | q]; simpl in Hb; try contradiction);
      js_unfold; q_cases; cbn; first [reflexivity | exfalso; lra].
Qed.

Lemma validateCoordinates_valid_iff_witness :
  AnalysisUtils.valid
    (AnalysisUtils.validateCoordinates
       (AnalysisUtils.VNumber JS.NaN) (AnalysisUtils.VNumber 190)) = false
  /\ AnalysisUtils.valid
       (AnalysisUtils.validateCoordinates
          (AnalysisUtils.VNumber JS.NaN) (AnalysisUtils.VNumber (-119.8)))
     = true.
Proof.
  split.
  - destruct (AnalysisUtils.valid
                (AnalysisUtils.validateCoordinates
                   (AnalysisUtils.VNumber JS.NaN)
                   (AnalysisUtils.VNumber 190))) eqn:E; [| reflexivity].
    apply validateCoordinates_valid_iff in E.
    destruct E as (a & b & _ & [= <-] & _ & [Hb | Hb]);
      [discriminate | simpl in Hb; lra].
  - apply validateCoordinates_valid_iff.
    exists JS.NaN, (JS.Fin (-119.8)).
    split; [reflexivity |]. split; [reflexivity |].
    split; [left; reflexivity | right; simpl; lra].
Defined.

Lemma timeValue_gt (a b : Z) :
  (JS.Fin (inject_Z a) >? JS.Fin (inject_Z b)) = (b <? a)%Z.
Proof.
  change (JS.Fin (inject_Z a) >? JS.Fin (inject_Z b))
    with (JS.Qltb (inject_Z b) (inject_Z a)).
  destruct (b <? a)%Z eqn:E.
  - apply Z.ltb_lt in E. apply Qltb_lt. rewrite <- Zlt_Qlt. exact E.
  - apply Z.ltb_ge in E. apply Qltb_ge. rewrite <- Zle_Qle. exact E.
Qed.

Lemma daysDiff_gt (s e : Z) :
  ((JS.Fin (inject_Z e) - JS.Fin (inject_Z s)) / (1000 * 60 * 60 * 24)
   >? 365)
  = (days365 <? e - s)%Z.
Proof.
  change ((JS.Fin (inject_Z e) - JS.Fin (inject_Z s))
          / (1000 * 60 * 60 * 24) >? 365)
    with (JS.Qltb 365 ((inject_Z e + - inject_Z s)
                       / (1000 * 60 * 60 * 24))).
  assert (Hd : (inject_Z e + - inject_Z s == inject_Z (e - s))%Q)
    by (unfold Z.sub; rewrite inject_Z_plus, inject_Z_opp; reflexivity).
  assert (Hc : (365 * (1000 * 60 * 60 * 24) == inject_Z days365)%Q)
    by reflexivity.
  destruct (days365 <? e - s)%Z eqn:E.
  - apply Z.ltb_lt in E. apply Qltb_lt.
    apply Qlt_shift_div_l; [reflexivity |].
    rewrite Hc, Hd, <- Zlt_Qlt. exact E.
  - apply Z.ltb_ge in E. apply Qltb_ge.
    apply Qle_shift_div_r; [reflexivity |].
    rewrite Hc, Hd, <- Zle_Qle. exact E.
Qed.

(** X22. [validateDateRange] answers valid exactly when both dates
    parse, the start is not after the end, the end is not after the
    clock, and the two are at most 365 days apart; a range of exactly
    365 days is accepted. *)
Theorem validateDateRange_valid_iff (now : Date) (start end_ : option Z) :
  AnalysisUtils.valid (AnalysisUtils.validateDateRange now start end_)
  = true
  <-> exists s e,
        start = Some s /\ end_ = Some e
        /\ (s <= e /\ e <= getTime now /\ e - s <= days365)%Z.
Proof.
  unfold AnalysisUtils.validateDateRange.
  destruct start as [s |]; destruct end_ as [e |];
    cbn [AnalysisUtils.timeValue JS.isNaN orb];
    try (split; [discriminate | intros (? & ? & ? & ? & _); discriminate]).
  rewrite !timeValue_gt, daysDiff_gt.
  destruct (e <? s)%Z eqn:E1;
    [apply Z.ltb_lt in E1 | apply Z.ltb_ge in E1];
    [| destruct (getTime now <? e)%Z eqn:E2;
       [apply Z.ltb_lt in E2 | apply Z.ltb_ge in E2];
       [| destruct (days365 <? e - s)%Z eqn:E3;
          [apply Z.ltb_lt in E3 | apply Z.ltb_ge in E3]]];
    cbn [AnalysisUtils.valid];
    (split;
     [ first [ discriminate | intros _; exists s, e; repeat split; assumption ]
     | first [ intros _; reflexivity
             | intros (s' & e' & [= <-] & [= <-] & H1 & H2 & H3); lia ] ]).
Qed.

Lemma validateDateRange_valid_iff_witness :
  AnalysisUtils.valid
    (AnalysisUtils.validateDateRange april
       (Some (getTime april - days365)%Z) (Some (getTime april)))
  = true.
Proof.
  apply validateDateRange_valid_iff.
  exists (getTime april - days365)%Z, (getTime april).
  split; [reflexivity |]. split; [reflexivity |].
  vm_compute. repeat split; discriminate.
Defined.

Lemma leb_Fin_false (a b : Q) : (JS.Fin a <=? JS.Fin b) = false <-> (b < a)%Q.
Proof.
  split.
  - intros H. destruct (Qlt_le_dec b a) as [Hlt | Hle]; [exact Hlt |].
    apply leb_Fin_iff in Hle. congruence.
  - intros H. destruct (JS.Fin a <=? JS.Fin b) eqn:E; [| reflexivity].
    apply leb_Fin_iff in E. lra.
Qed.

(** Case analysis on every [<=] between two finite numbers. *)
Ltac leb_cases :=
  repeat match goal with
         | |- context [JS.leb (JS.Fin ?a) (JS.Fin ?b)] =>
             let E := fresh "E" in
             destruct (JS.leb (JS.Fin a) (JS.Fin b)) eqn:E;
             [apply leb_Fin_iff in E | apply leb_Fin_false in E]
         end.

(** X23. For thresholds in increasing order [getLevel] is monotone: a
    larger percentage never gets a lower level. *)
Theorem getLevel_monotone (t : AnalysisUtils.Thresholds) (p1 p2 : Q) :
  orderedThresholds t -> (p1 <= p2)%Q ->
  (levelRank (AnalysisUtils.getLevel (JS.Fin p1) t)
   <= levelRank (AnalysisUtils.getLevel (JS.Fin p2) t))%Z.
Proof.
  intros (a & b & c & d & Ha & Hb & Hc & Hd & Ho) Hle.
  unfold AnalysisUtils.getLevel. rewrite Ha, Hb, Hc, Hd.
  leb_cases; first [ exfalso; lra | vm_compute; discriminate ].
Qed.

Lemma getLevel_monotone_witness :
  (levelRank (AnalysisUtils.getLevel (JS.Fin 15) usualThresholds)
   <= levelRank (AnalysisUtils.getLevel (JS.Fin 30.5) usualThresholds))%Z.
Proof.
  apply getLevel_monotone.
  - exists 15%Q, 30%Q, 60%Q, 80%Q. repeat split; vm_compute; discriminate.
  - vm_compute. discriminate.
Defined.








Lemma Qltb_compat_l (a a' b : Q) :
  (a == a')%Q -> JS.Qltb a b = JS.Qltb a' b.
Proof.
  intros H. destruct (JS.Qltb a' b) eqn:E.
  - apply Qltb_lt in E. apply Qltb_lt. lra.
  - apply Qltb_ge in E. apply Qltb_ge. lra.
Qed.

Lemma Qltb_compat_r (a b b' : Q) :
  (b == b')%Q -> JS.Qltb a b = JS.Qltb a b'.
Proof.
  intros H. destruct (JS.Qltb a b') eqn:E.
  - apply Qltb_lt in E. apply Qltb_lt. lra.
  - apply Qltb_ge in E. apply Qltb_ge. lra.
Qed.

(** X26. The seasonal correction treats the hemispheres as mirror
    images: away from the equator, a place and its mirror image six
    months later get the same corrected value. *)
Theorem applyEnvironmentalCorrections_mirror (value : JS.num)
  (location : Location) (date : Date) (q : Q) :
  lat location = JS.Fin q -> ~ (q == 0)%Q ->
  (0 <= getMonth date <= 11)%Z ->
  AnalysisUtils.applyEnvironmentalCorrections value (mirrored location)
    (oppositeMonth date)
  = AnalysisUtils.applyEnvironmentalCorrections value location date.
Proof.
  intros Hl Hq Hm. unfold AnalysisUtils.applyEnvironmentalCorrections.
  cbn [lat mirrored getMonth oppositeMonth]. rewrite Hl.
  cbn [JS.neg JS.abs]. unfold JS.gtb, JS.ltb.
  rewrite (Qltb_compat_l (Qabs (- q)) (Qabs q) 23.5 (Qabs_opp q)).
  rewrite (Qltb_compat_r 66.5 (Qabs (- q)) (Qabs q) (Qabs_opp q)).
  assert (Hs : (JS.Qltb 0 q = true /\ JS.Qltb 0 (- q) = false)
               \/ (JS.Qltb 0 q = false /\ JS.Qltb 0 (- q) = true)).
  { destruct (Qlt_le_dec 0 q).
    - left. split; [apply Qltb_lt | apply Qltb_ge]; lra.
    - right. split; [apply Qltb_ge | apply Qltb_lt]; [lra |].
      destruct (Qlt_le_dec 0 (- q)); [assumption | exfalso; apply Hq; lra]. }
  assert (Hcases : (getMonth date = 0 \/ getMonth date = 1
                    \/ getMonth date = 2 \/ getMonth date = 3
                    \/ getMonth date = 4 \/ getMonth date = 5
                    \/ getMonth date = 6 \/ getMonth date = 7
                    \/ getMonth date = 8 \/ getMonth date = 9
                    \/ getMonth date = 10 \/ getMonth date = 11)%Z) by lia.
  destruct Hs as [[-> ->] | [-> ->]];
    decompose [or] Hcases;
    match goal with
    | H : getMonth date = _ |- _ => rewrite H
    end;
    cbn;
    destruct (JS.Qltb (Qabs q) 23.5); destruct (JS.Qltb 66.5 (Qabs q));
    reflexivity.
Qed.

Lemma applyEnvironmentalCorrections_mirror_witness :
  AnalysisUtils.applyEnvironmentalCorrections (JS.Fin 40) (mirrored fresno)
    (oppositeMonth july)
  = AnalysisUtils.applyEnvironmentalCorrections (JS.Fin 40) fresno july.
Proof.
  apply (applyEnvironmentalCorrections_mirror (JS.Fin 40) fresno july 36.7).
  - reflexivity.
  - intros H. vm_compute in H. discriminate.
  - vm_compute. split; discriminate.
Defined.

(** X27. [isOverLand] answers true only between 55 south and 80 north
    and from 170 west eastwards, and answers true for every point between
    35 south and 75 north from 170 west to 180 east, open sea included. *)
Theorem isOverLand_band (x y : Q) :
  (AnalysisUtils.isOverLand (JS.Fin x) (JS.Fin y) = true ->
   (-55 <= x /\ x <= 80 /\ -170 <= y /\ y <= 180)%Q)
  /\ ((-35 <= x /\ x <= 75 /\ -170 <= y /\ y <= 180)%Q ->
      AnalysisUtils.isOverLand (JS.Fin x) (JS.Fin y) = true).
Proof.
  unfold AnalysisUtils.isOverLand.
  cbn [existsb AnalysisUtils.minLat AnalysisUtils.maxLat
         AnalysisUtils.minLon AnalysisUtils.maxLon].
  unfold JS.geb. split.
  - destruct ((JS.Fin x >? 85) || (JS.Fin x <? -85)); [discriminate |].
    intros H.
    repeat (apply orb_true_iff in H; destruct H as [H | H]);
      try discriminate H;
      repeat (apply andb_true_iff in H;
              let H' := fresh "H" in destruct H as [H H']);
      repeat match goal with
             | H : (JS.Fin _ <=? JS.Fin _) = true |- _ =>
                 apply leb_Fin_iff in H
             end; lra.
  - intros (X1 & X2 & Y1 & Y2).
    assert (G : (JS.Fin x >? 85) || (JS.Fin x <? -85) = false).
    { unfold JS.gtb, JS.ltb. apply orb_false_iff.
      split; apply Qltb_ge; lra. }
    rewrite G.
    assert (L : forall a b : Q, (a <= b)%Q -> (JS.Fin a <=? JS.Fin b) = true)
      by (intros a b; apply leb_Fin_iff).
    destruct (Qlt_le_dec y (-30)) as [W | W];
      [| destruct (Qlt_le_dec y 60) as [M | M]].
    + rewrite (L (-55) x), (L x 75), (L (-170) y), (L y (-30)) by lra.
      reflexivity.
    + rewrite (L (-35) x), (L x 80), (L (-30) y), (L y 60) by lra.
      cbn [andb]. apply orb_true_r.
    + rewrite (L (-50) x), (L x 80), (L 60 y), (L y 180) by lra.
      cbn [andb]. rewrite !orb_true_r. reflexivity.
Qed.

Lemma isOverLand_band_witness :
  AnalysisUtils.isOverLand (JS.Fin 30) (JS.Fin (-45)) = true.
Proof.
  apply (proj2 (isOverLand_band 30 (-45))).
  vm_compute. repeat split; discriminate.
Defined.

(** ** Further properties of the temperature estimator and the entry
    point *)

(** X28. If the sine is between -1 and 1 on finite arguments and
    [Math.PI] is finite, then for every reading with all bands in [0,1]
    and every latitude in [-90,90] the temperature reported in Celsius
    is a whole number of tenths between -33 and 54. *)
Theorem calculateSoilTemperature_range
  (Math_sin : JS.num -> JS.num) (Math_PI : JS.num) (b : Bands)
  (location : Location) (date : Date) (q : Q) :
  (forall x, JS.isFinite x = true -> JS.within (-1) 1 (Math_sin x)) ->
  JS.isFinite Math_PI = true ->
  validReading b -> lat location = JS.Fin q -> (-90 <= q /\ q <= 90)%Q ->
  exists k : Z,
    celsius (calculateSoilTemperature Math_sin Math_PI b location date)
    = JS.Fin (inject_Z k / 10)
    /\ (-330 <= k <= 540)%Z.
Proof.
  intros Hsin Hpi (_ & _ & _ & _ & _ & V11 & V12) Hl Hq.
  destruct (B11 b) as [| | | b11] eqn:E11; try contradiction.
  destruct (B12 b) as [| | | b12] eqn:E12; try contradiction.
  simpl in V11, V12.
  destruct Math_PI as [| | | p]; try discriminate.
  unfold calculateSoilTemperature. cbn [celsius]. rewrite E11, E12, Hl.
  pose proof (Hsin ((JS.Fin (inject_Z (getMonth date)) - 3) * JS.Fin p / 6)
                eq_refl) as Hs.
  destruct (Math_sin
              ((JS.Fin (inject_Z (getMonth date)) - 3) * JS.Fin p / 6))
    as [| | | sn]; try contradiction.
  simpl in Hs. cbn [JS.abs].
  assert (Ha : (0 <= Qabs q /\ Qabs q <= 90)%Q).
  { split; [apply Qabs_nonneg | apply Qabs_Qle_condition; lra]. }
  generalize dependent (Qabs q). intros a Ha.
  match goal with
  | |- context [JS.round (JS.mul ?t _)] =>
      assert (Ht : exists t', t = JS.Fin t' /\ (-33 <= t' /\ t' <= 54)%Q)
        by (eexists; split; [reflexivity | lra])
  end.
  destruct Ht as (t' & -> & Ht).
  exists (Qfloor (t' * 10 + (1 # 2))). split; [reflexivity |]. split.
  - change (-330)%Z with (Qfloor (-33 * 10 + (1 # 2))).
    apply Qfloor_resp_le. lra.
  - change 540%Z with (Qfloor (54 * 10 + (1 # 2))).
    apply Qfloor_resp_le. lra.
Qed.

Lemma calculateSoilTemperature_range_witness :
  exists k : Z,
    celsius
      (calculateSoilTemperature (fun _ => JS.Fin 0.5) (JS.Fin 3.14159)
         drySteepReading fresno march)
    = JS.Fin (inject_Z k / 10)
    /\ (-330 <= k <= 540)%Z.
Proof.
  apply (calculateSoilTemperature_range (fun _ => JS.Fin 0.5)
           (JS.Fin 3.14159) drySteepReading fresno march 36.7).
  - intros x _. simpl. lra.
  - reflexivity.
  - unfold validReading, drySteepReading. simpl. lra.
  - reflexivity.
  - vm_compute. split; discriminate.
Defined.

(** X29. With at least one scene the entry point returns the analysis
    of a scene of the list with the least cloud cover: its id, the
    indices and the moisture of its bands, and the confidence scored for
    it against the whole list. *)
Theorem analyzeSoilData_uses_least_cloudy
  (Math_sin : JS.num -> JS.num) (Math_PI : JS.num) (now : Date)
  (location : Location) (s : Scene) (rest : list Scene) :
  exists result best,
    analyzeSoilData Math_sin Math_PI now
      {| scenes := Some (s :: rest) |} location
    = Return result
    /\ In best (s :: rest)
    /\ (forall t, In t (s :: rest) -> (cloudCover best <= cloudCover t)%Q)
    /\ sceneUsed result = scene_id best
    /\ indices result = calculateVegetationIndices (bands best)
    /\ result_moisture result
       = analyzeSoilMoisture (bands best)
           (calculateVegetationIndices (bands best)) location
    /\ confidence result = calculateConfidence now best (s :: rest).
Proof.
  destruct (selectBestScene_cons s rest) as (best & Hb & Hin & Hpref).
  cbv beta delta [analyzeSoilData]. cbn [scenes].
  destruct (Z.of_nat (length (s :: rest)) =? 0)%Z eqn:E.
  - apply Z.eqb_eq in E. simpl length in E. lia.
  - rewrite Hb. eexists. exists best. split; [reflexivity |].
    split; [exact Hin |]. split.
    + intros t Ht. destruct (Hpref t Ht) as [H | [H _]]; lra.
    + repeat split.
Qed.
